(** * Library API (lab7): a shallow embedding of [lab7/main.py]

    The service is a FastAPI application with five handlers over one
    SQLite table, [books], a pydantic body model and a logging middleware.
    The handlers are embedded as computations in a state-and-exception
    monad over a [World] that holds the table, the records written to
    [api.log] and the clock read by [time.time()].

    The libraries under the handlers are modelled where the handlers
    depend on them:
    - the SQL texts have the meaning SQLite gives them on the table
      declared by [BookDB] (an [INTEGER PRIMARY KEY] column without
      [AUTOINCREMENT], hence an alias of the rowid): rows are kept in rowid
      order, a scan returns them in that order, and an [INSERT] that
      supplies no id takes the largest rowid in use plus one (1 on an
      empty table);
    - the [price] column has REAL affinity: a NaN is stored as NULL and a
      negative zero is read back as zero;
    - the driver binds an [int] parameter only in the signed 64-bit range
      and raises [OverflowError] outside it;
    - a row whose price is NULL fails the response model [Book], and an
      infinite price is rendered as [null];
    - an exception that is not an [HTTPException] passes through the
      middleware and is answered 500 by the server.
    The service is taken as started: the connection that [startup] opens
    is there.  Outside the model: the ceiling of rowids, where the engine
    switches to random candidates, and the message texts of the
    framework's validation errors. *)

From Stdlib Require Import ZArith List String Ascii Bool Floats Lia.
From Stdlib Require Import DecimalString Sorted.
Import ListNotations.

Open Scope string_scope.
Open Scope list_scope.
Open Scope Z_scope.

(** ** Text helpers: what the f-strings of the source need *)

(** [str(n)] for a Python [int]. *)
Definition str_int (n : Z) : string := NilZero.string_of_int (Z.to_int n).

(** [n / d] rounded to the nearest integer, ties to even ([0 <= n], [0 < d]). *)
Definition round_half_even (n d : Z) : Z :=
  let q := n / d in
  let r := n mod d in
  if 2 * r <? d then q
  else if d <? 2 * r then q + 1
  else if Z.even q then q else q + 1.

(** Three decimal digits, zero padded. *)
Definition pad3 (n : Z) : string :=
  if n <? 10 then ("00" ++ str_int n)%string
  else if n <? 100 then ("0" ++ str_int n)%string
  else str_int n.

(** [format(x, ".3f")]: the exact binary value of [x], correctly rounded to
    three decimals. *)
Definition format_3f (x : float) : string :=
  match Prim2SF x with
  | S754_nan => "nan"
  | S754_infinity s => if s then "-inf" else "inf"
  | S754_zero s => ((if s then "-" else "") ++ "0.000")%string
  | S754_finite s m e =>
      let thousandths :=
        if 0 <=? e then Z.pos m * 2 ^ e * 1000
        else round_half_even (Z.pos m * 1000) (2 ^ (- e)) in
      ((if s then "-" else "")
         ++ str_int (thousandths / 1000) ++ "." ++ pad3 (thousandths mod 1000))%string
  end.

(** [float(n)] for a Python [int] in the range of a double. *)
Definition float_of_int (n : Z) : float :=
  SF2Prim (binary_normalize prec emax n 0 false).

Definition is_finite (x : float) : bool :=
  match Prim2SF x with
  | S754_zero _ | S754_finite _ _ _ => true
  | _ => false
  end.

(** ** Data model *)

(** [class BookBase(BaseModel)] and [class BookCreate(BookBase)]: the
    validated request body. *)
Module BookCreate.
Record t : Type := mk { title : string; author : string; price : float }.
End BookCreate.

(** [class BookDB(Base)]: a row of the table [books].  The [price]
    column is nullable, and a NULL is what the engine keeps of a NaN. *)
Module BookDB.
Record t : Type := mk { id : Z; title : string; author : string; price : option float }.
End BookDB.

(** Parsed JSON, as [json.loads] gives it: an object is a [dict], read
    here as its list of items, looked up by key. *)
#[local] Unset Elimination Schemes.
Inductive json : Type :=
| JNull
| JBool (b : bool)
| JInt (n : Z)
| JFloat (x : float)
| JStr (s : string)
| JArr (items : list json)
| JObj (members : list (string * json)).
#[local] Set Elimination Schemes.

Fixpoint dict_get (k : string) (d : list (string * json)) : option json :=
  match d with
  | [] => None
  | (k', v) :: d' => if String.eqb k k' then Some v else dict_get k d'
  end.

(** A float in a JSON response: a number, or [null] when not finite. *)
Definition render_float (x : float) : json :=
  if is_finite x then JFloat x else JNull.

(** [class Book(BookBase)] with [orm_mode]: the response model, built
    from a row attribute by attribute (and refused when the price is
    NULL, [price: float]) and then serialised, the inherited fields first. *)
Module Book.
Record t : Type := mk { title : string; author : string; price : float; id : Z }.

Definition from_orm (r : BookDB.t) : option t :=
  match BookDB.price r with
  | Some x => Some (mk (BookDB.title r) (BookDB.author r) x (BookDB.id r))
  | None => None
  end.

Definition to_json (b : t) : json :=
  JObj [("title", JStr (title b)); ("author", JStr (author b));
        ("price", render_float (price b)); ("id", JInt (id b))].
End Book.

(** A row through the response model: its JSON, or [None] when the
    model refuses the row. *)
Definition Book_response (r : BookDB.t) : option json :=
  option_map Book.to_json (Book.from_orm r).

(** ** The world the handlers act on *)

Inductive Level : Type := INFO | WARNING.

Record World : Type := mkWorld {
  books : list BookDB.t;            (* table [books], in rowid order *)
  api_log : list (Level * string);  (* records appended to api.log *)
  clock : nat -> float;             (* successive readings of [time.time()] *)
  ticks : nat                       (* readings taken so far *)
}.

Definition with_books (t : list BookDB.t) (w : World) : World :=
  mkWorld t (api_log w) (clock w) (ticks w).

(** [HTTPException(status_code=..., detail=...)] *)
Record HTTPException : Type := mkHTTPException { status_code : Z; detail : string }.

(** The exceptions of a request: the one the handlers raise, the one of
    the driver for an [int] it cannot bind, and the one of the framework
    for a result its response model refuses. *)
Inductive Exception : Type :=
| HTTP (e : HTTPException)
| OverflowError
| ResponseValidationError.

Inductive Outcome (A : Type) : Type :=
| Return (a : A)
| Raise (e : Exception).
Arguments Return {A} a.
Arguments Raise {A} e.

(** A handler: state passing over the world, with [raise]. *)
Definition M (A : Type) : Type := World -> Outcome A * World.

Definition ret {A} (a : A) : M A := fun w => (Return a, w).

Definition bind {A B} (c : M A) (k : A -> M B) : M B :=
  fun w =>
    match c w with
    | (Return a, w') => k a w'
    | (Raise e, w') => (Raise e, w')
    end.

Definition raise {A} (e : Exception) : M A := fun w => (Raise e, w).

Declare Scope handler_scope.
Delimit Scope handler_scope with handler.
Notation "x <- c ;; k" := (bind c (fun x => k))
  (at level 100, c at next level, right associativity) : handler_scope.
Notation "c ;; k" := (bind c (fun _ => k))
  (at level 100, right associativity) : handler_scope.

Definition emit (l : Level) (msg : string) : M unit :=
  fun w => (Return tt, mkWorld (books w) (api_log w ++ [(l, msg)]) (clock w) (ticks w)).

Definition logger_info : string -> M unit := emit INFO.
Definition logger_warning : string -> M unit := emit WARNING.

(** [time.time()] *)
Definition time : M float :=
  fun w => (Return (clock w (ticks w)), mkWorld (books w) (api_log w) (clock w) (S (ticks w))).

(** ** Storage: the SQL statements of the handlers *)

(** The five SQL texts of [main.py] with their bound values. *)
Inductive Query : Type :=
| SELECT_all                                                      (* SELECT * FROM books *)
| SELECT_by_id (id : Z)                                           (* ... WHERE id = :id *)
| INSERT_returning (title author : string) (price : float)        (* INSERT INTO books (title, author, price) ... RETURNING * *)
| UPDATE_returning (id : Z) (title author : string) (price : float) (* UPDATE books SET ... WHERE id = :id RETURNING * *)
| DELETE_returning (id : Z).                                      (* DELETE FROM books WHERE id = :id RETURNING * *)

(** The range of an SQLite INTEGER. *)
Definition in_int64 (n : Z) : bool := (- 2 ^ 63 <=? n) && (n <=? 2 ^ 63 - 1).

(** Whether the driver can bind the parameters of a statement: an [int]
    has to fit an SQLite INTEGER; strings and floats always do. *)
Definition parameters_fit (q : Query) : bool :=
  match q with
  | SELECT_by_id i | UPDATE_returning i _ _ _ | DELETE_returning i => in_int64 i
  | SELECT_all | INSERT_returning _ _ _ => true
  end.

(** What a REAL column holds of a float written to it: NULL for a NaN,
    zero for a negative zero, the float itself otherwise. *)
Definition real_column (x : float) : option float :=
  match Prim2SF x with
  | S754_nan => None
  | S754_zero _ => Some 0%float
  | _ => Some x
  end.

Definition has_id (i : Z) (r : BookDB.t) : bool := BookDB.id r =? i.

(** The largest rowid in use, if any. *)
Definition max_rowid (t : list BookDB.t) : option Z :=
  match t with
  | [] => None
  | r :: t' => Some (fold_left Z.max (map BookDB.id t') (BookDB.id r))
  end.

(** The rowid given to an inserted row that supplies none. *)
Definition new_rowid (t : list BookDB.t) : Z :=
  match max_rowid t with
  | None => 1
  | Some m => m + 1
  end.

Definition set_fields (title author : string) (price : option float) (r : BookDB.t)
  : BookDB.t :=
  BookDB.mk (BookDB.id r) title author price.

(** One statement against the table: the rows it returns and the table
    it leaves. *)
Definition execute (q : Query) (t : list BookDB.t) : list BookDB.t * list BookDB.t :=
  match q with
  | SELECT_all => (t, t)
  | SELECT_by_id i => (filter (has_id i) t, t)
  | INSERT_returning title author price =>
      let row := BookDB.mk (new_rowid t) title author (real_column price) in
      ([row], t ++ [row])
  | UPDATE_returning i title author price =>
      (map (set_fields title author (real_column price)) (filter (has_id i) t),
       map (fun r => if has_id i r then set_fields title author (real_column price) r
                     else r) t)
  | DELETE_returning i =>
      (filter (has_id i) t, filter (fun r => negb (has_id i r)) t)
  end.

(** [database.fetch_all(query)] *)
Definition fetch_all (q : Query) : M (list BookDB.t) :=
  fun w =>
    if parameters_fit q
    then let '(rows, t) := execute q (books w) in (Return rows, with_books t w)
    else (Raise OverflowError, w).

(** [database.fetch_one(query, values)]: the first returned row, or
    [None]; [OverflowError] when a value cannot be bound. *)
Definition fetch_one (q : Query) : M (option BookDB.t) :=
  fun w =>
    if parameters_fit q
    then let '(rows, t) := execute q (books w) in (Return (hd_error rows), with_books t w)
    else (Raise OverflowError, w).

(** ** CRUD handlers *)

Definition not_found : Exception := HTTP (mkHTTPException 404 "Book not found").

Definition get_books : M (list BookDB.t) :=
  (logger_info "GET /books - Fetching all books" ;;
   fetch_all SELECT_all)%handler.

Definition get_book (book_id : Z) : M BookDB.t :=
  (logger_info ("GET /books/" ++ str_int book_id) ;;
   book <- fetch_one (SELECT_by_id book_id) ;;
   match book with
   | None =>
       logger_warning ("Book with id " ++ str_int book_id ++ " not found") ;;
       raise not_found
   | Some b => ret b
   end)%handler.

Definition create_book (book : BookCreate.t) : M (option BookDB.t) :=
  (logger_info ("POST /books - Creating book: " ++ BookCreate.title book) ;;
   created_book <- fetch_one (INSERT_returning (BookCreate.title book)
                                (BookCreate.author book) (BookCreate.price book)) ;;
   ret created_book)%handler.

Definition update_book (book_id : Z) (book : BookCreate.t) : M BookDB.t :=
  (logger_info ("PUT /books/" ++ str_int book_id ++ " - Updating book: "
                  ++ BookCreate.title book) ;;
   updated_book <- fetch_one (UPDATE_returning book_id (BookCreate.title book)
                                (BookCreate.author book) (BookCreate.price book)) ;;
   match updated_book with
   | None =>
       logger_warning ("Book with id " ++ str_int book_id ++ " not found") ;;
       raise not_found
   | Some b => ret b
   end)%handler.

Definition deleted_message : json := JObj [("message", JStr "Book deleted successfully")].

Definition delete_book (book_id : Z) : M json :=
  (logger_info ("DELETE /books/" ++ str_int book_id) ;;
   deleted_book <- fetch_one (DELETE_returning book_id) ;;
   match deleted_book with
   | None =>
       logger_warning ("Book with id " ++ str_int book_id ++ " not found") ;;
       raise not_found
   | Some _ => ret deleted_message
   end)%handler.

(** ** Request validation: the pydantic model [BookCreate] *)

(** *** Text that may spell a float *)

Definition code (c : ascii) : nat := nat_of_ascii c.

Definition is_digit (c : ascii) : bool := Nat.leb 48 (code c) && Nat.leb (code c) 57.

(** What [str.strip] takes for white space in ASCII: space, tab, line
    feed, vertical tab, form feed, carriage return and the four
    separators 28 to 31. *)
Definition is_space (c : ascii) : bool :=
  Nat.eqb (code c) 32 || (Nat.leb 9 (code c) && Nat.leb (code c) 13)
  || (Nat.leb 28 (code c) && Nat.leb (code c) 31).

Definition is_sign (c : ascii) : bool := Nat.eqb (code c) 43 || Nat.eqb (code c) 45.

Definition lower (c : ascii) : ascii :=
  if Nat.leb 65 (code c) && Nat.leb (code c) 90 then ascii_of_nat (code c + 32) else c.

(** The characters of a string without white space and underscores, in
    lower case. *)
Definition squeeze (s : string) : list ascii :=
  map lower (filter (fun c => negb (is_space c || Nat.eqb (code c) 95))
               (list_ascii_of_string s)).

(** The digits a text starts with, counted, and the rest. *)
Fixpoint digits (l : list ascii) : nat * list ascii :=
  match l with
  | c :: l' => if is_digit c then let '(n, rest) := digits l' in (S n, rest) else (O, l)
  | [] => (O, [])
  end.

Definition drop_sign (l : list ascii) : list ascii :=
  match l with
  | c :: l' => if is_sign c then l' else l
  | [] => []
  end.

Definition is_nil {A} (l : list A) : bool :=
  match l with
  | [] => true
  | _ => false
  end.

(** Nothing, or [e], an optional sign and at least one digit. *)
Definition exponent (l : list ascii) : bool :=
  match l with
  | [] => true
  | c :: l' =>
      Nat.eqb (code c) 101
      && let '(n, rest) := digits (drop_sign l') in Nat.ltb 0 n && is_nil rest
  end.

(** Digits with an optional point, at least one digit in all, and an
    optional exponent. *)
Definition number (l : list ascii) : bool :=
  let '(n1, r1) := digits l in
  match r1 with
  | c :: r2 =>
      if Nat.eqb (code c) 46
      then let '(n2, r3) := digits r2 in Nat.ltb 0 (n1 + n2) && exponent r3
      else Nat.ltb 0 n1 && exponent r1
  | [] => Nat.ltb 0 n1
  end.

Definition word (l : list ascii) : bool :=
  let s := string_of_list_ascii l in
  String.eqb s "inf" || String.eqb s "infinity" || String.eqb s "nan".

(** Whether a string may spell a float for the validation library: it
    holds a character outside ASCII (whose reading differs between the
    library's versions), or, leaving out white space and underscores, it is
    an optionally signed decimal literal, [inf], [infinity] or [nan] in
    any case.  Every string that [float] of any version reads is one of
    these; a string that is not is refused by all. *)
Definition may_spell_float (s : string) : bool :=
  existsb (fun c => Nat.leb 128 (code c)) (list_ascii_of_string s)
  || (let l := drop_sign (squeeze s) in word l || number l).

(** *** The field validators *)

(** What the validation library does with a scalar of another type than
    the declared one (a string that may spell a float, a boolean or an
    integer beyond the doubles for a [float]; a number for a [str])
    differs between its versions and is not fixed by the source: it is a
    parameter of the model. *)
Record Coercion : Type := mkCoercion {
  coerce_str : json -> option string;
  coerce_float : json -> option float
}.

(** The policy that coerces nothing. *)
Definition strict : Coercion := mkCoercion (fun _ => None) (fun _ => None).

(** One entry of a validation error: the location of the offending value. *)
Record ErrorItem : Type := mkErrorItem { loc : list string }.

Section Validation.

Variable lax : Coercion.

(** Field type [str]. *)
Definition str_validator (v : json) : option string :=
  match v with
  | JStr s => Some s
  | JNull | JArr _ | JObj _ => None
  | JBool _ | JInt _ | JFloat _ => coerce_str lax v
  end.

(** Field type [float]. *)
Definition float_validator (v : json) : option float :=
  match v with
  | JFloat x => Some x
  | JInt n => if is_finite (float_of_int n) then Some (float_of_int n)
              else coerce_float lax v
  | JNull | JArr _ | JObj _ => None
  | JStr s => if may_spell_float s then coerce_float lax v else None
  | JBool _ => coerce_float lax v
  end.

(** A required field: present, and accepted by the validator of its type. *)
Definition required {A} (validator : json -> option A) (name : string)
           (d : list (string * json)) : A + list ErrorItem :=
  match dict_get name d with
  | None => inr [mkErrorItem ["body"; name]]
  | Some v =>
      match validator v with
      | Some a => inl a
      | None => inr [mkErrorItem ["body"; name]]
      end
  end.

Definition errors {A} (r : A + list ErrorItem) : list ErrorItem :=
  match r with
  | inl _ => []
  | inr e => e
  end.

(** Validation of a body against [BookCreate]: all three fields are
    required, none has a constraint besides its type. *)
Definition BookCreate_validate (body : json) : BookCreate.t + list ErrorItem :=
  match body with
  | JObj d =>
      match required str_validator "title" d,
            required str_validator "author" d,
            required float_validator "price" d with
      | inl title, inl author, inl price => inl (BookCreate.mk title author price)
      | rt, ra, rp => inr (errors rt ++ errors ra ++ errors rp)
      end
  | _ => inr [mkErrorItem ["body"]]
  end.

End Validation.

(** ** The application: routes, responses, middleware *)

Record Response : Type := mkResponse { status : Z; content : json }.

(** The operation a request was routed to by the decorators
    [@app.get], [@app.post], [@app.put], [@app.delete], with the path
    parameter converted to [int] and the body parsed as JSON. *)
Inductive Endpoint : Type :=
| GET_books
| GET_book (book_id : Z)
| POST_books (body : json)
| PUT_book (book_id : Z) (body : json)
| DELETE_book (book_id : Z).

Record Request : Type := mkRequest {
  method : string;
  url_path : string;
  endpoint : Endpoint
}.

(** [HTTPException] rendered by the framework. *)
Definition http_exception_response (e : HTTPException) : Response :=
  mkResponse (status_code e) (JObj [("detail", JStr (detail e))]).

(** A request body refused by the model: 422, one entry per error. *)
Definition validation_error_response (errs : list ErrorItem) : Response :=
  mkResponse 422
    (JObj [("detail", JArr (map (fun e => JObj [("loc", JArr (map JStr (loc e)))]) errs))]).

Definition internal_server_error : Response :=
  mkResponse 500 (JStr "Internal Server Error").

(** Run a handler and serialise its result through the response model.
    An [HTTPException] is rendered as a response; a result the model
    refuses raises [ResponseValidationError]; any other exception goes
    on. *)
Definition serve {A} (response_model : A -> option json) (handler : M A) : M Response :=
  fun w =>
    match handler w with
    | (Return a, w') =>
        match response_model a with
        | Some j => (Return (mkResponse 200 j), w')
        | None => (Raise ResponseValidationError, w')
        end
    | (Raise (HTTP e), w') => (Return (http_exception_response e), w')
    | (Raise e, w') => (Raise e, w')
    end.

(** All the rows through the response model, or [None] if it refuses one. *)
Fixpoint all_responses (l : list BookDB.t) : option (list json) :=
  match l with
  | [] => Some []
  | r :: l' =>
      match Book_response r, all_responses l' with
      | Some j, Some js => Some (j :: js)
      | _, _ => None
      end
  end.

(** [response_model=Book], [response_model=List[Book]] and no model. *)
Definition as_Book (r : BookDB.t) : option json := Book_response r.
Definition as_optional_Book (r : option BookDB.t) : option json :=
  match r with
  | Some b => Book_response b
  | None => None
  end.
Definition as_Book_list (l : list BookDB.t) : option json := option_map JArr (all_responses l).
Definition as_is (j : json) : option json := Some j.

Section App.

Variable lax : Coercion.

Definition app (request : Request) : M Response :=
  match endpoint request with
  | GET_books => serve as_Book_list get_books
  | GET_book book_id => serve as_Book (get_book book_id)
  | POST_books body =>
      match BookCreate_validate lax body with
      | inl book => serve as_optional_Book (create_book book)
      | inr errs => ret (validation_error_response errs)
      end
  | PUT_book book_id body =>
      match BookCreate_validate lax body with
      | inl book => serve as_Book (update_book book_id book)
      | inr errs => ret (validation_error_response errs)
      end
  | DELETE_book book_id => serve as_is (delete_book book_id)
  end.

End App.

(** [@app.middleware("http")] *)
Definition log_requests (request : Request) (call_next : Request -> M Response)
  : M Response :=
  (start_time <- time ;;
   response <- call_next request ;;
   now <- time ;;
   let duration := (now - start_time)%float in
   logger_info (method request ++ " " ++ url_path request ++ " - "
                ++ "Status: " ++ str_int (status response) ++ " - "
                ++ "Duration: " ++ format_3f duration ++ "s") ;;
   ret response)%handler.

(** One request through the middleware and the router. *)
Definition http (lax : Coercion) (request : Request) : M Response :=
  log_requests request (app lax).

(** What the client gets: the response, or 500 when an exception came
    through. *)
Definition answer (lax : Coercion) (request : Request) (w : World) : Response :=
  match fst (http lax request w) with
  | Return response => response
  | Raise _ => internal_server_error
  end.

(** A sequence of requests, one after the other. *)
Fixpoint run (lax : Coercion) (requests : list Request) (w : World) : World :=
  match requests with
  | [] => w
  | request :: rest => run lax rest (snd (http lax request w))
  end.

(** A fresh database, as [create_all] leaves it, and an empty log. *)
Definition fresh (clk : nat -> float) : World := mkWorld [] [] clk 0.

(** ** Vocabulary of the statements *)

(** The ids in use, in scan order. *)
Definition ids (t : list BookDB.t) : list Z := map BookDB.id t.

(** The table is in rowid order: ids strictly increase along a scan. *)
Definition increasing (t : list BookDB.t) : Prop := StronglySorted Z.lt (ids t).

(** The world with a new table and more log records; clock untouched. *)
Definition evolve (w : World) (t : list BookDB.t) (records : list (Level * string)) : World :=
  mkWorld t (api_log w ++ records) (clock w) (ticks w).

(** The world after one reading of the clock. *)
Definition tick (w : World) : World :=
  mkWorld (books w) (api_log w) (clock w) (S (ticks w)).

(** The line [log_requests] writes for a response. *)
Definition request_line (request : Request) (response : Response) (duration : float)
  : Level * string :=
  (INFO, method request ++ " " ++ url_path request ++ " - "
         ++ "Status: " ++ str_int (status response) ++ " - "
         ++ "Duration: " ++ format_3f duration ++ "s")%string.

(** What the framework makes of a result through its response model. *)
Definition respond (o : option json) : Outcome Response :=
  match o with
  | Some j => Return (mkResponse 200 j)
  | None => Raise ResponseValidationError
  end.

(** A float as the REAL column gives it back, when it is no NaN: zero
    for a negative zero, the float itself otherwise. *)
Definition unsigned_zero (x : float) : float :=
  match Prim2SF x with
  | S754_zero _ => 0%float
  | _ => x
  end.

(** The double a JSON number stands for. *)
Definition number_value (v : json) : option float :=
  match v with
  | JFloat x => Some x
  | JInt n => Some (float_of_int n)
  | _ => None
  end.

(** The double nearest to 9.99, the price of the test suite's book. *)
Definition price_9_99 : float := 0x1.3fae147ae147bp+3%float.

(** The bodies and tables of the test suite. *)
Definition test_book : list (string * json) :=
  [("title", JStr "Test Book"); ("author", JStr "Test Author"); ("price", JFloat price_9_99)].

Definition clock0 : nat -> float := fun _ => 0%float.

(** The 404 the handlers raise, as rendered. *)
Definition not_found_response : Response :=
  mkResponse 404 (JObj [("detail", JStr "Book not found")]).

(** The JSON object of a book with a finite price. *)
Definition book_json (id : Z) (title author : string) (price : float) : json :=
  JObj [("title", JStr title); ("author", JStr author); ("price", JFloat price);
        ("id", JInt id)].

(** The JSON object of a book whose price is infinite: the price is
    rendered as null. *)
Definition book_json_null (id : Z) (title author : string) : json :=
  JObj [("title", JStr title); ("author", JStr author); ("price", JNull);
        ("id", JInt id)].

Definition one_book : World :=
  mkWorld [BookDB.mk 1 "Test Book" "Test Author" (Some price_9_99)] [] clock0 0.

Definition updated_book : list (string * json) :=
  [("title", JStr "Updated Book"); ("author", JStr "Updated Author"); ("price", JFloat 12.5)].

Definition two_books : World :=
  mkWorld [BookDB.mk 1 "Test Book" "Test Author" (Some price_9_99);
           BookDB.mk 2 "Updated Book" "Updated Author" (Some 12.5%float)] [] clock0 0.

Definition test_book_with_id : list (string * json) := ("id", JInt 42) :: test_book.

(** A body with a price that is not a number, and one beyond the doubles. *)
Definition nan_book : list (string * json) :=
  [("title", JStr "Test Book"); ("author", JStr "Test Author"); ("price", JFloat nan)].

Definition infinite_book : list (string * json) :=
  [("title", JStr "Test Book"); ("author", JStr "Test Author"); ("price", JFloat infinity)].

(** The JSON body a client sends for a book. *)
Definition body_of (b : BookCreate.t) : json :=
  JObj [("title", JStr (BookCreate.title b)); ("author", JStr (BookCreate.author b));
        ("price", JFloat (BookCreate.price b))].

(** POST /books for each book of a list, in order. *)
Definition create_requests (bs : list BookCreate.t) : list Request :=
  map (fun b => mkRequest "POST" "/books" (POST_books (body_of b))) bs.

(** The rows of the books of a list, numbered from [k] on. *)
Fixpoint numbered (k : Z) (bs : list BookCreate.t) : list BookDB.t :=
  match bs with
  | [] => []
  | b :: bs' =>
      BookDB.mk k (BookCreate.title b) (BookCreate.author b)
        (real_column (BookCreate.price b))
        :: numbered (k + 1) bs'
  end.

(** The JSON of the books of a list, numbered from [k] on, as stored. *)
Fixpoint numbered_json (k : Z) (bs : list BookCreate.t) : list json :=
  match bs with
  | [] => []
  | b :: bs' =>
      book_json k (BookCreate.title b) (BookCreate.author b)
        (unsigned_zero (BookCreate.price b))
        :: numbered_json (k + 1) bs'
  end.

(** The id in the path of a request, if its route has one. *)
Definition path_id (e : Endpoint) : option Z :=
  match e with
  | GET_book i | PUT_book i _ | DELETE_book i => Some i
  | GET_books | POST_books _ => None
  end.

Definition is_warning (record : Level * string) : bool :=
  match fst record with
  | WARNING => true
  | INFO => false
  end.

(** A JSON number. *)
Definition is_number (v : json) : bool :=
  match v with
  | JInt _ | JFloat _ => true
  | _ => false
  end.



(** Three creates and a delete, for the examples. *)
Definition some_requests : list Request :=
  [mkRequest "POST" "/books" (POST_books (JObj test_book));
   mkRequest "POST" "/books" (POST_books (JObj updated_book));
   mkRequest "POST" "/books" (POST_books (JObj test_book));
   mkRequest "DELETE" "/books/2" (DELETE_book 2)].

(** The records of a table whose id is not [i], in scan order. *)
Definition others (i : Z) (t : list BookDB.t) : list BookDB.t :=
  filter (fun r => negb (has_id i r)) t.

(** *** The claims of the specification that the code does not keep *)

(** C1 as the specification states it: every well-typed body is
    answered 200 with its three values and the assigned id. *)
Definition create_echoes_every_body : Prop :=
  forall (lax : Coercion) (m p : string) (d : list (string * json))
         (title author : string) (price : float) (w : World),
    dict_get "title" d = Some (JStr title) ->
    dict_get "author" d = Some (JStr author) ->
    dict_get "price" d = Some (JFloat price) ->
    fst (http lax (mkRequest m p (POST_books (JObj d))) w)
    = Return (mkResponse 200 (book_json (new_rowid (books w)) title author price)).

(** C2 as the specification states it: for every integer id, 404
    exactly when no record has the id. *)
Definition get_is_404_iff_absent : Prop :=
  forall (lax : Coercion) (m p : string) (book_id : Z) (w : World),
    fst (http lax (mkRequest m p (GET_book book_id)) w) = Return not_found_response
    <-> (forall r, In r (books w) -> BookDB.id r <> book_id).

(** C3 as the specification states it: every well-typed body put on an
    existing record is answered with its values. *)
Definition update_echoes_every_body : Prop :=
  forall (lax : Coercion) (m p : string) (book_id : Z) (d : list (string * json))
         (title author : string) (price : float) (w : World) (old : BookDB.t),
    dict_get "title" d = Some (JStr title) ->
    dict_get "author" d = Some (JStr author) ->
    dict_get "price" d = Some (JFloat price) ->
    In old (books w) -> BookDB.id old = book_id ->
    fst (http lax (mkRequest m p (PUT_book book_id (JObj d))) w)
    = Return (mkResponse 200 (book_json book_id title author price)).

(** C4 as the specification states it: for every integer id without a
    record, update and delete answer 404. *)
Definition absent_id_is_404 : Prop :=
  forall (lax : Coercion) (m p : string) (book_id : Z) (body : json)
         (book : BookCreate.t) (w : World),
    BookCreate_validate lax body = inl book ->
    (forall r, In r (books w) -> BookDB.id r <> book_id) ->
    fst (http lax (mkRequest m p (PUT_book book_id body)) w) = Return not_found_response
    /\ fst (http lax (mkRequest m p (DELETE_book book_id)) w) = Return not_found_response.

(** C6 as the specification states it: the list succeeds in every state
    that requests can reach. *)
Definition list_always_succeeds : Prop :=
  forall (lax : Coercion) (m p : string) (requests : list Request) (clk : nat -> float),
  exists items,
    fst (http lax (mkRequest m p GET_books) (run lax requests (fresh clk)))
    = Return (mkResponse 200 (JArr items)).

(** C7 as the specification states it, second half: an id that was in
    the table and then left it is never seen in the table again. *)
Definition ids_never_reused : Prop :=
  forall (lax : Coercion) (clk : nat -> float) (before between after : list Request) (i : Z),
    let w1 := run lax before (fresh clk) in
    let w2 := run lax between w1 in
    let w3 := run lax after w2 in
    In i (ids (books w1)) -> ~ In i (ids (books w2)) -> ~ In i (ids (books w3)).

(** * Properties *)

(** ** Floats in the column and in the response *)

Lemma real_column_finite (x : float) :
  is_finite x = true -> real_column x = Some (unsigned_zero x).
Proof.
  unfold is_finite, real_column, unsigned_zero.
  destruct (Prim2SF x); intros H; try discriminate H; reflexivity.
Qed.

Lemma unsigned_zero_finite (x : float) :
  is_finite x = true -> is_finite (unsigned_zero x) = true.
Proof.
  intros H. unfold unsigned_zero. destruct (Prim2SF x) eqn:E; try exact H. reflexivity.
Qed.

(** Only a negative zero is changed. *)
Lemma unsigned_zero_same (x : float) :
  Prim2SF x <> S754_zero true -> unsigned_zero x = x.
Proof.
  intros H. unfold unsigned_zero. destruct (Prim2SF x) as [[|]| | |] eqn:E; try reflexivity.
  - contradiction.
  - rewrite <- (SF2Prim_Prim2SF x), E. reflexivity.
Qed.

Lemma render_finite (x : float) : is_finite x = true -> render_float x = JFloat x.
Proof. intros H. unfold render_float. now rewrite H. Qed.

(** A row whose price is a finite float goes through the response model
    as it is. *)
Lemma Book_response_stored (i : Z) (title author : string) (x : float) :
  is_finite x = true ->
  Book_response (BookDB.mk i title author (Some x)) = Some (book_json i title author x).
Proof.
  intros H. unfold Book_response, Book.from_orm, Book.to_json, book_json. cbn.
  now rewrite (render_finite x H).
Qed.

Lemma Book_response_written (i : Z) (title author : string) (x : float) :
  is_finite x = true ->
  Book_response (BookDB.mk i title author (real_column x))
  = Some (book_json i title author (unsigned_zero x)).
Proof.
  intros H. rewrite (real_column_finite x H).
  apply Book_response_stored. now apply unsigned_zero_finite.
Qed.

Lemma real_column_infinite (x : float) (s : bool) :
  Prim2SF x = S754_infinity s -> real_column x = Some x.
Proof. intros H. unfold real_column. now rewrite H. Qed.

Lemma real_column_nan (x : float) :
  Prim2SF x = S754_nan -> real_column x = None.
Proof. intros H. unfold real_column. now rewrite H. Qed.

(** A row whose price is infinite goes through the response model with
    the price rendered as null. *)
Lemma Book_response_infinite (i : Z) (title author : string) (x : float) (s : bool) :
  Prim2SF x = S754_infinity s ->
  Book_response (BookDB.mk i title author (Some x)) = Some (book_json_null i title author).
Proof.
  intros H. unfold Book_response, Book.from_orm, Book.to_json, book_json_null, render_float,
    is_finite. cbn. now rewrite H.
Qed.

(** The response model refuses exactly the rows whose price is NULL. *)
Lemma Book_response_none (r : BookDB.t) :
  Book_response r = None <-> BookDB.price r = None.
Proof.
  unfold Book_response, Book.from_orm. destruct (BookDB.price r); cbn; split;
    intros H; try discriminate H; reflexivity.
Qed.

Lemma all_responses_some (l : list BookDB.t) :
  (forall r, In r l -> BookDB.price r <> None) ->
  exists items, all_responses l = Some items /\ map Some items = map Book_response l.
Proof.
  induction l as [|r l IH]; intros H; [exists []; split; reflexivity|].
  destruct IH as [items [E Hmap]]. { intros r' Hr'. apply H. now right. }
  destruct (Book_response r) as [j|] eqn:Er.
  - exists (j :: items). cbn [all_responses map]. rewrite Er, E, Hmap. split; reflexivity.
  - exfalso. apply (H r (or_introl eq_refl)). now apply Book_response_none.
Qed.

Lemma all_responses_none (l : list BookDB.t) :
  (exists r, In r l /\ BookDB.price r = None) -> all_responses l = None.
Proof.
  induction l as [|r l IH]; intros [r0 [Hin Hp]]; [contradiction|].
  cbn [all_responses]. destruct Hin as [->|Hin].
  - now rewrite (proj2 (Book_response_none r0) Hp).
  - rewrite IH by (exists r0; split; assumption). now destruct (Book_response r).
Qed.

Lemma all_responses_app (l1 l2 : list BookDB.t) (j1 j2 : list json) :
  all_responses l1 = Some j1 -> all_responses l2 = Some j2 ->
  all_responses (l1 ++ l2) = Some (j1 ++ j2).
Proof.
  revert j1. induction l1 as [|r l1 IH]; intros j1 H1 H2.
  - injection H1 as <-. exact H2.
  - rewrite <- app_comm_cons. cbn [all_responses] in *.
    destruct (Book_response r) as [j|]; [|discriminate H1].
    destruct (all_responses l1) as [js|] eqn:E; [|discriminate H1].
    injection H1 as <-. now rewrite (IH js eq_refl H2).
Qed.

(** ** The table: rowids *)

Lemma fold_max_le (l : list Z) : forall a, a <= fold_left Z.max l a.
Proof.
  induction l as [|x l IH]; intros a; simpl; [lia|].
  specialize (IH (Z.max a x)). lia.
Qed.

Lemma fold_max_In (l : list Z) : forall a x, In x l -> x <= fold_left Z.max l a.
Proof.
  induction l as [|y l IH]; intros a x Hx; simpl in *; [contradiction|].
  destruct Hx as [->|Hx].
  - pose proof (fold_max_le l (Z.max a x)). lia.
  - now apply IH.
Qed.

Lemma new_rowid_above (t : list BookDB.t) (r : BookDB.t) :
  In r t -> BookDB.id r < new_rowid t.
Proof.
  unfold new_rowid, max_rowid. destruct t as [|r0 t]; [contradiction|].
  intros [->|Hr].
  - pose proof (fold_max_le (map BookDB.id t) (BookDB.id r)). lia.
  - pose proof (fold_max_In (map BookDB.id t) (BookDB.id r0) (BookDB.id r)
                  (in_map BookDB.id _ _ Hr)). lia.
Qed.

Lemma new_rowid_fresh (t : list BookDB.t) : ~ In (new_rowid t) (ids t).
Proof.
  unfold ids. intros H. apply in_map_iff in H. destruct H as [r [Hid Hr]].
  pose proof (new_rowid_above t r Hr). lia.
Qed.

Lemma increasing_NoDup (t : list BookDB.t) : increasing t -> NoDup (ids t).
Proof.
  unfold increasing. induction 1 as [|x l Hs IH Hx]; constructor; [|exact IH].
  intros Hin. rewrite Forall_forall in Hx. specialize (Hx x Hin). lia.
Qed.

Lemma sorted_snoc (l : list Z) (x : Z) :
  StronglySorted Z.lt l -> (forall y, In y l -> y < x) -> StronglySorted Z.lt (l ++ [x]).
Proof.
  induction 1 as [|y l Hs IH Hy]; intros Hlt; simpl.
  - constructor; constructor.
  - constructor.
    + apply IH. intros z Hz. apply Hlt. now right.
    + rewrite Forall_forall in *. intros z Hz. apply in_app_or in Hz.
      destruct Hz as [Hz|[<-|[]]]; [now apply Hy| apply Hlt; now left].
Qed.

Lemma increasing_filter (f : BookDB.t -> bool) (t : list BookDB.t) :
  increasing t -> increasing (filter f t).
Proof.
  unfold increasing, ids. induction t as [|r t IH]; simpl; intros H; [exact H|].
  inversion H as [|x l Hs Hx]; subst.
  destruct (f r); simpl; [constructor|]; try now apply IH.
  rewrite Forall_forall in *. intros z Hz. apply Hx.
  apply in_map_iff in Hz. destruct Hz as [r' [<- Hr']].
  apply filter_In in Hr'. apply in_map. tauto.
Qed.

Lemma ids_update (i : Z) (title author : string) (price : option float) (t : list BookDB.t) :
  ids (map (fun r => if has_id i r then set_fields title author price r else r) t) = ids t.
Proof.
  unfold ids. rewrite map_map. apply map_ext. intros r. now destruct (has_id i r).
Qed.

(** Every statement keeps the table in rowid order. *)
Lemma execute_increasing (q : Query) (t : list BookDB.t) :
  increasing t -> increasing (snd (execute q t)).
Proof.
  intros H. destruct q; simpl; trivial.
  - unfold increasing, ids. rewrite map_app. simpl. apply sorted_snoc; [exact H|].
    intros y Hy. apply in_map_iff in Hy. destruct Hy as [r [<- Hr]].
    now apply new_rowid_above.
  - unfold increasing. now rewrite ids_update.
  - now apply increasing_filter.
Qed.

(** ** The table: selection by id *)

Lemma has_id_true (i : Z) (r : BookDB.t) : has_id i r = true <-> BookDB.id r = i.
Proof. unfold has_id. apply Z.eqb_eq. Qed.

Lemma has_id_false (i : Z) (r : BookDB.t) : has_id i r = false <-> BookDB.id r <> i.
Proof. unfold has_id. apply Z.eqb_neq. Qed.

(** No row is selected exactly when no stored row has the id. *)
Lemma select_none (i : Z) (t : list BookDB.t) :
  hd_error (filter (has_id i) t) = None <-> (forall r, In r t -> BookDB.id r <> i).
Proof.
  induction t as [|r t IH]; simpl.
  - split; [intros _ r []|reflexivity].
  - destruct (has_id i r) eqn:E; simpl.
    + split; [discriminate|]. intros H. apply has_id_true in E.
      exfalso. apply (H r); [now left|exact E].
    + rewrite IH. apply has_id_false in E. split.
      * intros H r' [<-|Hr']; [exact E|now apply H].
      * intros H r' Hr'. apply H. now right.
Qed.

(** A selected row is a stored row with the id. *)
Lemma select_some (i : Z) (t : list BookDB.t) (b : BookDB.t) :
  hd_error (filter (has_id i) t) = Some b -> In b t /\ BookDB.id b = i.
Proof.
  intros H. assert (Hin : In b (filter (has_id i) t)).
  { destruct (filter (has_id i) t); [discriminate|]. injection H as ->. now left. }
  apply filter_In in Hin. destruct Hin as [Hin Hid]. split; [exact Hin|].
  now apply has_id_true.
Qed.

(** Where ids are distinct, the selected row is the stored row with the id. *)
Lemma select_unique (i : Z) (t : list BookDB.t) (r : BookDB.t) :
  NoDup (ids t) -> In r t -> BookDB.id r = i ->
  hd_error (filter (has_id i) t) = Some r.
Proof.
  unfold ids. induction t as [|r0 t IH]; simpl; intros Hnd Hin Hid; [contradiction|].
  inversion Hnd as [|x l Hnotin Hnd']; subst.
  destruct Hin as [->|Hin].
  - assert (E : has_id (BookDB.id r) r = true) by now apply has_id_true.
    now rewrite E.
  - destruct (has_id (BookDB.id r) r0) eqn:E.
    + apply has_id_true in E. exfalso. apply Hnotin. rewrite E. now apply in_map.
    + now apply IH.
Qed.

Lemma filter_none_id {A} (f : A -> bool) (l : list A) :
  (forall x, In x l -> f x = true) -> filter f l = l.
Proof.
  induction l as [|x l IH]; simpl; intros H; [reflexivity|].
  rewrite (H x (or_introl eq_refl)). f_equal. apply IH. intros y Hy. apply H. now right.
Qed.

Lemma map_none_id {A} (f : A -> A) (l : list A) :
  (forall x, In x l -> f x = x) -> map f l = l.
Proof.
  induction l as [|x l IH]; simpl; intros H; [reflexivity|].
  rewrite (H x (or_introl eq_refl)). f_equal. apply IH. intros y Hy. apply H. now right.
Qed.

(** An update or a delete that selects no row leaves the table as it is. *)
Lemma update_absent (i : Z) (title author : string) (price : option float) (t : list BookDB.t) :
  (forall r, In r t -> BookDB.id r <> i) ->
  map (fun r => if has_id i r then set_fields title author price r else r) t = t.
Proof.
  intros H. apply map_none_id. intros r Hr.
  now rewrite (proj2 (has_id_false i r) (H r Hr)).
Qed.

Lemma delete_absent (i : Z) (t : list BookDB.t) :
  (forall r, In r t -> BookDB.id r <> i) ->
  filter (fun r => negb (has_id i r)) t = t.
Proof.
  intros H. apply filter_none_id. intros r Hr.
  now rewrite (proj2 (has_id_false i r) (H r Hr)).
Qed.

(** The first row an update returns is the targeted row with its new fields. *)
Lemma select_updated (i : Z) (title author : string) (price : option float)
      (t : list BookDB.t) (b : BookDB.t) :
  hd_error (filter (has_id i) t) = Some b ->
  set_fields title author price b = BookDB.mk i title author price.
Proof.
  intros H. destruct (select_some _ _ _ H) as [_ Hid].
  unfold set_fields. now rewrite Hid.
Qed.

Lemma select_present (i : Z) (t : list BookDB.t) (r : BookDB.t) :
  In r t -> BookDB.id r = i -> exists b, hd_error (filter (has_id i) t) = Some b.
Proof.
  intros Hr Hid. destruct (hd_error (filter (has_id i) t)) as [b|] eqn:E; [now exists b|].
  exfalso. exact (proj1 (select_none i t) E r Hr Hid).
Qed.

Lemma filter_others_update (i : Z) (title author : string) (price : option float)
      (t : list BookDB.t) :
  filter (fun r => negb (has_id i r))
    (map (fun r => if has_id i r then set_fields title author price r else r) t)
  = filter (fun r => negb (has_id i r)) t.
Proof.
  induction t as [|r t IH]; [reflexivity|]. cbn [map filter].
  destruct (has_id i r) eqn:E.
  - change (has_id i (set_fields title author price r)) with (has_id i r).
    rewrite E. exact IH.
  - rewrite E. cbn [negb]. now rewrite IH.
Qed.

Lemma filter_idempotent {A} (f : A -> bool) (l : list A) : filter f (filter f l) = filter f l.
Proof.
  induction l as [|x l IH]; [reflexivity|]. simpl.
  destruct (f x) eqn:E; simpl; rewrite ?E, IH; reflexivity.
Qed.

Lemma filter_absent (i : Z) (t : list BookDB.t) :
  (forall r, In r t -> BookDB.id r <> i) -> filter (has_id i) t = [].
Proof.
  induction t as [|r t IH]; intros H; [reflexivity|]. simpl.
  rewrite (proj2 (has_id_false i r) (H r (or_introl eq_refl))).
  apply IH. intros r' Hr'. apply H. now right.
Qed.

(** In a table that gained a row with an id not in use, that id selects
    the new row, and deleting it gives the old table back. *)
Lemma select_appended (t : list BookDB.t) (row : BookDB.t) :
  (forall r, In r t -> BookDB.id r <> BookDB.id row) ->
  hd_error (filter (has_id (BookDB.id row)) (t ++ [row])) = Some row
  /\ filter (fun r => negb (has_id (BookDB.id row) r)) (t ++ [row]) = t.
Proof.
  intros H. rewrite !filter_app, (filter_absent _ _ H), (delete_absent _ _ H).
  cbn [filter app]. rewrite (proj2 (has_id_true (BookDB.id row) row) eq_refl).
  cbn [negb hd_error]. split; [reflexivity|apply app_nil_r].
Qed.

Lemma new_rowid_differs (t : list BookDB.t) (r : BookDB.t) :
  In r t -> BookDB.id r <> new_rowid t.
Proof. intros Hr. pose proof (new_rowid_above t r Hr). lia. Qed.

(** The rows an update selects in the table it left are the rows it set. *)
Lemma filter_updated (i : Z) (title author : string) (price : option float) (t : list BookDB.t) :
  filter (has_id i)
    (map (fun r => if has_id i r then set_fields title author price r else r) t)
  = map (set_fields title author price) (filter (has_id i) t).
Proof.
  induction t as [|r t IH]; [reflexivity|]. cbn [map filter].
  destruct (has_id i r) eqn:E.
  - change (has_id i (set_fields title author price r)) with (has_id i r).
    rewrite E. cbn [map]. now rewrite IH.
  - rewrite E. exact IH.
Qed.

Lemma update_twice (i : Z) (title author : string) (price : option float) (t : list BookDB.t) :
  let f := fun r => if has_id i r then set_fields title author price r else r in
  map f (map f t) = map f t.
Proof.
  intros f. rewrite map_map. apply map_ext. intros r. unfold f.
  destruct (has_id i r) eqn:E; [|now rewrite E].
  change (has_id i (set_fields title author price r)) with (has_id i r).
  now rewrite E.
Qed.

Lemma hd_error_map {A B} (f : A -> B) (l : list A) :
  hd_error (map f l) = option_map f (hd_error l).
Proof. destruct l; reflexivity. Qed.

Lemma ids_app (l1 l2 : list BookDB.t) : ids (l1 ++ l2) = ids l1 ++ ids l2.
Proof. unfold ids. apply map_app. Qed.

(** Where ids are distinct, the rows around a row have other ids. *)
Lemma distinct_around (l1 l2 : list BookDB.t) (old : BookDB.t) :
  NoDup (ids (l1 ++ old :: l2)) ->
  (forall r, In r l1 -> BookDB.id r <> BookDB.id old)
  /\ (forall r, In r l2 -> BookDB.id r <> BookDB.id old).
Proof.
  rewrite ids_app. cbn [ids map]. intros H. apply NoDup_remove_2 in H.
  split; intros r Hr E; apply H, in_or_app; [left|right];
    rewrite <- E; now apply in_map.
Qed.

Lemma fold_max_app (l1 l2 : list Z) (a : Z) :
  fold_left Z.max (l1 ++ l2) a = fold_left Z.max l2 (fold_left Z.max l1 a).
Proof. apply fold_left_app. Qed.

(** After an insert, the next rowid is one more. *)
Lemma new_rowid_after_insert (t : list BookDB.t) (title author : string) (price : option float) :
  new_rowid (t ++ [BookDB.mk (new_rowid t) title author price]) = new_rowid t + 1.
Proof.
  destruct t as [|r0 t]; [reflexivity|].
  set (k := new_rowid (r0 :: t)).
  unfold new_rowid. rewrite <- app_comm_cons. cbn [max_rowid].
  rewrite map_app, fold_max_app. cbn [map fold_left BookDB.id].
  unfold k, new_rowid, max_rowid. lia.
Qed.

Lemma filter_other_after_delete (i j : Z) (t : list BookDB.t) :
  j <> i ->
  filter (has_id j) (filter (fun r => negb (has_id i r)) t) = filter (has_id j) t.
Proof.
  intros Hne. induction t as [|r t IH]; [reflexivity|]. cbn [filter].
  destruct (has_id i r) eqn:Ei; cbn [negb filter].
  - destruct (has_id j r) eqn:Ej; [|exact IH].
    apply has_id_true in Ei. apply has_id_true in Ej. congruence.
  - now rewrite IH.
Qed.

Lemma filter_other_after_update (i j : Z) (title author : string) (price : option float)
      (t : list BookDB.t) :
  j <> i ->
  filter (has_id j)
    (map (fun r => if has_id i r then set_fields title author price r else r) t)
  = filter (has_id j) t.
Proof.
  intros Hne. induction t as [|r t IH]; [reflexivity|]. cbn [map filter].
  destruct (has_id i r) eqn:Ei.
  - change (has_id j (set_fields title author price r)) with (has_id j r).
    destruct (has_id j r) eqn:Ej; [|exact IH].
    apply has_id_true in Ei. apply has_id_true in Ej. congruence.
  - now rewrite IH.
Qed.

(** ** What each handler computes *)

Ltac run_handler :=
  unfold bind, ret, raise, logger_info, logger_warning, emit, fetch_one, fetch_all,
    with_books, evolve; cbn [parameters_fit execute books api_log clock ticks fst snd].

Lemma get_books_run (w : World) :
  get_books w
  = (Return (books w), evolve w (books w) [(INFO, "GET /books - Fetching all books")]).
Proof. unfold get_books. run_handler. reflexivity. Qed.

Lemma get_book_run (book_id : Z) (w : World) :
  get_book book_id w
  = (if in_int64 book_id
     then match hd_error (filter (has_id book_id) (books w)) with
          | Some b =>
              (Return b, evolve w (books w) [(INFO, "GET /books/" ++ str_int book_id)])
          | None =>
              (Raise not_found,
               evolve w (books w)
                 [(INFO, "GET /books/" ++ str_int book_id);
                  (WARNING, "Book with id " ++ str_int book_id ++ " not found")])
          end
     else (Raise OverflowError,
           evolve w (books w) [(INFO, "GET /books/" ++ str_int book_id)]))%string.
Proof.
  unfold get_book. run_handler. destruct (in_int64 book_id); [|reflexivity].
  destruct (hd_error (filter (has_id book_id) (books w))); cbn [api_log books clock ticks];
    rewrite <- ?app_assoc; reflexivity.
Qed.

Lemma create_book_run (book : BookCreate.t) (w : World) :
  let row := BookDB.mk (new_rowid (books w)) (BookCreate.title book)
               (BookCreate.author book) (real_column (BookCreate.price book)) in
  create_book book w
  = (Return (Some row),
     evolve w (books w ++ [row])
       [(INFO, "POST /books - Creating book: " ++ BookCreate.title book)])%string.
Proof. unfold create_book. run_handler. reflexivity. Qed.

Lemma update_book_run (book_id : Z) (book : BookCreate.t) (w : World) :
  let set := set_fields (BookCreate.title book) (BookCreate.author book)
               (real_column (BookCreate.price book)) in
  let t := map (fun r => if has_id book_id r then set r else r) (books w) in
  let info := (INFO, "PUT /books/" ++ str_int book_id ++ " - Updating book: "
                       ++ BookCreate.title book)%string in
  update_book book_id book w
  = (if in_int64 book_id
     then match hd_error (filter (has_id book_id) (books w)) with
          | Some b => (Return (set b), evolve w t [info])
          | None =>
              (Raise not_found,
               evolve w t
                 [info; (WARNING, "Book with id " ++ str_int book_id ++ " not found")])
          end
     else (Raise OverflowError, evolve w (books w) [info]))%string.
Proof.
  unfold update_book. run_handler. destruct (in_int64 book_id); [|reflexivity].
  destruct (filter (has_id book_id) (books w)); cbn [map hd_error api_log books clock ticks];
    rewrite <- ?app_assoc; reflexivity.
Qed.

Lemma delete_book_run (book_id : Z) (w : World) :
  let t := filter (fun r => negb (has_id book_id r)) (books w) in
  delete_book book_id w
  = (if in_int64 book_id
     then match hd_error (filter (has_id book_id) (books w)) with
          | Some _ =>
              (Return deleted_message,
               evolve w t [(INFO, "DELETE /books/" ++ str_int book_id)])
          | None =>
              (Raise not_found,
               evolve w t
                 [(INFO, "DELETE /books/" ++ str_int book_id);
                  (WARNING, "Book with id " ++ str_int book_id ++ " not found")])
          end
     else (Raise OverflowError,
           evolve w (books w) [(INFO, "DELETE /books/" ++ str_int book_id)]))%string.
Proof.
  unfold delete_book. run_handler. destruct (in_int64 book_id); [|reflexivity].
  destruct (hd_error (filter (has_id book_id) (books w))); cbn [api_log books clock ticks];
    rewrite <- ?app_assoc; reflexivity.
Qed.

(** ** The middleware and the router *)

Lemma log_requests_run (request : Request) (call_next : Request -> M Response) (w : World) :
  log_requests request call_next w
  = match call_next request (tick w) with
    | (Return response, w2) =>
        (Return response,
         evolve (tick w2) (books w2)
           [request_line request response
              (clock w2 (ticks w2) - clock w (ticks w))%float])
    | (Raise e, w2) => (Raise e, w2)
    end.
Proof.
  unfold log_requests, time, tick, request_line. run_handler.
  destruct (call_next request _) as [[response|e] w2]; reflexivity.
Qed.

Lemma serve_run {A} (response_model : A -> option json) (handler : M A) (w : World) :
  serve response_model handler w
  = (match fst (handler w) with
     | Return a => respond (response_model a)
     | Raise (HTTP e) => Return (http_exception_response e)
     | Raise e => Raise e
     end,
     snd (handler w)).
Proof.
  unfold serve, respond. destruct (handler w) as [[a|[e| |]] w']; cbn [fst snd];
    try reflexivity.
  destruct (response_model a); reflexivity.
Qed.

(** Through the middleware: the router's outcome, and the router's table. *)
Lemma http_response (lax : Coercion) (request : Request) (w : World) :
  fst (http lax request w) = fst (app lax request (tick w)).
Proof.
  unfold http. rewrite log_requests_run.
  destruct (app lax request (tick w)) as [[response|e] w2]; reflexivity.
Qed.

Lemma http_books (lax : Coercion) (request : Request) (w : World) :
  books (snd (http lax request w)) = books (snd (app lax request (tick w))).
Proof.
  unfold http. rewrite log_requests_run.
  destruct (app lax request (tick w)) as [[response|e] w2]; reflexivity.
Qed.

(** ** The router, by route: the outcome, the table and the records *)

Lemma app_get_books (lax : Coercion) (m p : string) (w : World) :
  app lax (mkRequest m p GET_books) w
  = (respond (as_Book_list (books w)),
     evolve w (books w) [(INFO, "GET /books - Fetching all books")]).
Proof. unfold app. cbn [endpoint]. now rewrite serve_run, get_books_run. Qed.

Lemma app_get_book (lax : Coercion) (m p : string) (i : Z) (w : World) :
  exists records,
    app lax (mkRequest m p (GET_book i)) w
    = (if in_int64 i
       then match hd_error (filter (has_id i) (books w)) with
            | Some b => respond (Book_response b)
            | None => Return not_found_response
            end
       else Raise OverflowError,
       evolve w (books w) records)
    /\ List.length (filter is_warning records)
       = (if in_int64 i
          then match hd_error (filter (has_id i) (books w)) with
               | Some _ => 0%nat
               | None => 1%nat
               end
          else 0%nat)
    /\ records <> [].
Proof.
  unfold app. cbn [endpoint]. rewrite serve_run, get_book_run.
  destruct (in_int64 i); [destruct (hd_error (filter (has_id i) (books w)))|];
    cbn [fst snd]; eexists; (split; [reflexivity|]); (split; [reflexivity|discriminate]).
Qed.

Lemma app_post (lax : Coercion) (m p : string) (body : json) (w : World) :
  app lax (mkRequest m p (POST_books body)) w
  = match BookCreate_validate lax body with
    | inl book =>
        let row := BookDB.mk (new_rowid (books w)) (BookCreate.title book)
                     (BookCreate.author book) (real_column (BookCreate.price book)) in
        (respond (Book_response row),
         evolve w (books w ++ [row])
           [(INFO, "POST /books - Creating book: " ++ BookCreate.title book)])%string
    | inr errs => (Return (validation_error_response errs), w)
    end.
Proof.
  unfold app. cbn [endpoint]. destruct (BookCreate_validate lax body); [|reflexivity].
  now rewrite serve_run, create_book_run.
Qed.

Lemma app_put (lax : Coercion) (m p : string) (i : Z) (body : json) (w : World) :
  match BookCreate_validate lax body with
  | inl book =>
      let set := set_fields (BookCreate.title book) (BookCreate.author book)
                   (real_column (BookCreate.price book)) in
      exists records,
        app lax (mkRequest m p (PUT_book i body)) w
        = (if in_int64 i
           then match hd_error (filter (has_id i) (books w)) with
                | Some b => respond (Book_response (set b))
                | None => Return not_found_response
                end
           else Raise OverflowError,
           evolve w (if in_int64 i
                     then map (fun r => if has_id i r then set r else r) (books w)
                     else books w) records)
        /\ List.length (filter is_warning records)
           = (if in_int64 i
              then match hd_error (filter (has_id i) (books w)) with
                   | Some _ => 0%nat
                   | None => 1%nat
                   end
              else 0%nat)
        /\ records <> []
  | inr errs =>
      app lax (mkRequest m p (PUT_book i body)) w
      = (Return (validation_error_response errs), w)
  end.
Proof.
  unfold app. cbn [endpoint]. destruct (BookCreate_validate lax body); [|reflexivity].
  cbn zeta. rewrite serve_run, update_book_run.
  destruct (in_int64 i); [destruct (hd_error (filter (has_id i) (books w)))|];
    cbn [fst snd]; eexists; (split; [reflexivity|]); (split; [reflexivity|discriminate]).
Qed.

Lemma app_delete (lax : Coercion) (m p : string) (i : Z) (w : World) :
  exists records,
    app lax (mkRequest m p (DELETE_book i)) w
    = (if in_int64 i
       then match hd_error (filter (has_id i) (books w)) with
            | Some _ => Return (mkResponse 200 deleted_message)
            | None => Return not_found_response
            end
       else Raise OverflowError,
       evolve w (if in_int64 i
                 then filter (fun r => negb (has_id i r)) (books w)
                 else books w) records)
    /\ List.length (filter is_warning records)
       = (if in_int64 i
          then match hd_error (filter (has_id i) (books w)) with
               | Some _ => 0%nat
               | None => 1%nat
               end
          else 0%nat)
    /\ records <> [].
Proof.
  unfold app. cbn [endpoint]. rewrite serve_run, delete_book_run.
  destruct (in_int64 i); [destruct (hd_error (filter (has_id i) (books w)))|];
    cbn [fst snd]; eexists; (split; [reflexivity|]); (split; [reflexivity|discriminate]).
Qed.

(** ** One request, by route: the outcome and the table it leaves *)

Lemma http_get_books (lax : Coercion) (m p : string) (w : World) :
  fst (http lax (mkRequest m p GET_books) w) = respond (as_Book_list (books w))
  /\ books (snd (http lax (mkRequest m p GET_books) w)) = books w.
Proof. rewrite http_response, http_books, app_get_books. split; reflexivity. Qed.

Lemma http_get_book (lax : Coercion) (m p : string) (i : Z) (w : World) :
  fst (http lax (mkRequest m p (GET_book i)) w)
  = (if in_int64 i
     then match hd_error (filter (has_id i) (books w)) with
          | Some b => respond (Book_response b)
          | None => Return not_found_response
          end
     else Raise OverflowError)
  /\ books (snd (http lax (mkRequest m p (GET_book i)) w)) = books w.
Proof.
  rewrite http_response, http_books.
  destruct (app_get_book lax m p i (tick w)) as [records [E _]]. rewrite E.
  split; reflexivity.
Qed.

Lemma http_post (lax : Coercion) (m p : string) (body : json) (w : World) :
  let request := mkRequest m p (POST_books body) in
  match BookCreate_validate lax body with
  | inl book =>
      let row := BookDB.mk (new_rowid (books w)) (BookCreate.title book)
                   (BookCreate.author book) (real_column (BookCreate.price book)) in
      fst (http lax request w) = respond (Book_response row)
      /\ books (snd (http lax request w)) = books w ++ [row]
  | inr errs =>
      fst (http lax request w) = Return (validation_error_response errs)
      /\ books (snd (http lax request w)) = books w
  end.
Proof.
  intros request. unfold request. rewrite http_response, http_books, app_post.
  destruct (BookCreate_validate lax body); split; reflexivity.
Qed.

Lemma http_put (lax : Coercion) (m p : string) (i : Z) (body : json) (w : World) :
  let request := mkRequest m p (PUT_book i body) in
  match BookCreate_validate lax body with
  | inl book =>
      let set := set_fields (BookCreate.title book) (BookCreate.author book)
                   (real_column (BookCreate.price book)) in
      fst (http lax request w)
      = (if in_int64 i
         then match hd_error (filter (has_id i) (books w)) with
              | Some b => respond (Book_response (set b))
              | None => Return not_found_response
              end
         else Raise OverflowError)
      /\ books (snd (http lax request w))
         = (if in_int64 i
            then map (fun r => if has_id i r then set r else r) (books w)
            else books w)
  | inr errs =>
      fst (http lax request w) = Return (validation_error_response errs)
      /\ books (snd (http lax request w)) = books w
  end.
Proof.
  intros request. unfold request. rewrite http_response, http_books.
  pose proof (app_put lax m p i body (tick w)) as H.
  destruct (BookCreate_validate lax body).
  - cbn zeta in H. destruct H as [records [E _]]. rewrite E. split; reflexivity.
  - rewrite H. split; reflexivity.
Qed.

Lemma http_delete (lax : Coercion) (m p : string) (i : Z) (w : World) :
  fst (http lax (mkRequest m p (DELETE_book i)) w)
  = (if in_int64 i
     then match hd_error (filter (has_id i) (books w)) with
          | Some _ => Return (mkResponse 200 deleted_message)
          | None => Return not_found_response
          end
     else Raise OverflowError)
  /\ books (snd (http lax (mkRequest m p (DELETE_book i)) w))
     = (if in_int64 i then filter (fun r => negb (has_id i r)) (books w) else books w).
Proof.
  rewrite http_response, http_books.
  destruct (app_delete lax m p i (tick w)) as [records [E _]]. rewrite E.
  split; reflexivity.
Qed.

(** Neither the outcome of the router nor the table it leaves depends on
    the log or on the clock. *)
Lemma app_reads_books_only (lax : Coercion) (request : Request) (w1 w2 : World) :
  books w1 = books w2 ->
  fst (app lax request w1) = fst (app lax request w2)
  /\ books (snd (app lax request w1)) = books (snd (app lax request w2)).
Proof.
  intros E. destruct request as [m p [|i|body|i body|i]].
  - rewrite !app_get_books, E. split; reflexivity.
  - destruct (app_get_book lax m p i w1) as [r1 [E1 _]].
    destruct (app_get_book lax m p i w2) as [r2 [E2 _]].
    rewrite E1, E2, E. split; reflexivity.
  - rewrite !app_post. destruct (BookCreate_validate lax body); cbn zeta.
    + rewrite E. split; reflexivity.
    + split; [reflexivity|exact E].
  - pose proof (app_put lax m p i body w1) as H1.
    pose proof (app_put lax m p i body w2) as H2.
    destruct (BookCreate_validate lax body); cbn zeta in H1, H2.
    + destruct H1 as [r1 [E1 _]]. destruct H2 as [r2 [E2 _]].
      rewrite E1, E2, E. split; reflexivity.
    + rewrite H1, H2. split; [reflexivity|exact E].
  - destruct (app_delete lax m p i w1) as [r1 [E1 _]].
    destruct (app_delete lax m p i w2) as [r2 [E2 _]].
    rewrite E1, E2, E. split; reflexivity.
Qed.

(** One request keeps the table in rowid order. *)
Lemma http_increasing (lax : Coercion) (request : Request) (w : World) :
  increasing (books w) -> increasing (books (snd (http lax request w))).
Proof.
  intros H. destruct request as [m p [|i|body|i body|i]].
  - destruct (http_get_books lax m p w) as [_ B]. now rewrite B.
  - destruct (http_get_book lax m p i w) as [_ B]. now rewrite B.
  - pose proof (http_post lax m p body w) as Hp.
    destruct (BookCreate_validate lax body) as [book|errs]; cbn zeta in Hp;
      destruct Hp as [_ B]; rewrite B; [|exact H].
    exact (execute_increasing
             (INSERT_returning (BookCreate.title book) (BookCreate.author book)
                (BookCreate.price book)) (books w) H).
  - pose proof (http_put lax m p i body w) as Hp.
    destruct (BookCreate_validate lax body) as [book|errs]; cbn zeta in Hp;
      destruct Hp as [_ B]; rewrite B; [|exact H].
    destruct (in_int64 i); [|exact H].
    exact (execute_increasing
             (UPDATE_returning i (BookCreate.title book) (BookCreate.author book)
                (BookCreate.price book)) (books w) H).
  - destruct (http_delete lax m p i w) as [_ B]. rewrite B.
    destruct (in_int64 i); [|exact H].
    exact (execute_increasing (DELETE_returning i) (books w) H).
Qed.

Lemma run_increasing (lax : Coercion) (requests : list Request) :
  forall w, increasing (books w) -> increasing (books (run lax requests w)).
Proof.
  induction requests as [|request rest IH]; intros w H; simpl; [exact H|].
  apply IH. now apply http_increasing.
Qed.

(** ** Validation *)

(** A body whose title and author are strings and whose price is a
    number within the doubles is accepted with exactly those values,
    whatever the coercion policy. *)
Lemma validate_well_typed (lax : Coercion) (d : list (string * json))
      (title author : string) (v : json) (price : float) :
  dict_get "title" d = Some (JStr title) ->
  dict_get "author" d = Some (JStr author) ->
  dict_get "price" d = Some v ->
  number_value v = Some price -> is_finite price = true ->
  BookCreate_validate lax (JObj d) = inl (BookCreate.mk title author price).
Proof.
  intros Ht Ha Hp Hv Hf. unfold BookCreate_validate, required.
  rewrite Ht, Ha, Hp. destruct v; try discriminate Hv; injection Hv as <-; cbn.
  - now rewrite Hf.
  - reflexivity.
Qed.

(** The same for a float of any kind. *)
Lemma validate_float_price (lax : Coercion) (d : list (string * json))
      (title author : string) (price : float) :
  dict_get "title" d = Some (JStr title) ->
  dict_get "author" d = Some (JStr author) ->
  dict_get "price" d = Some (JFloat price) ->
  BookCreate_validate lax (JObj d) = inl (BookCreate.mk title author price).
Proof.
  intros Ht Ha Hp. unfold BookCreate_validate, required.
  rewrite Ht, Ha, Hp. reflexivity.
Qed.




Lemma body_of_accepted (lax : Coercion) (b : BookCreate.t) :
  BookCreate_validate lax (body_of b) = inl b.
Proof.
  unfold body_of. rewrite (validate_float_price lax _ (BookCreate.title b)
                             (BookCreate.author b) (BookCreate.price b));
    try reflexivity. now destruct b.
Qed.

(** ** Create *)

(** C1 fails as stated: a price that is not a number is accepted, its
    row is stored with a NULL price, and the request is answered with an
    exception instead of an echo. *)
Lemma C1_nan_price_is_not_echoed : ~ create_echoes_every_body.
Proof.
  intros H.
  specialize (H strict "POST" "/books" nan_book "Test Book" "Test Author" nan
                (fresh clock0) eq_refl eq_refl eq_refl).
  assert (E : fst (http strict (mkRequest "POST" "/books" (POST_books (JObj nan_book)))
                     (fresh clock0))
              = Raise ResponseValidationError) by (vm_compute; reflexivity).
  rewrite E in H. discriminate H.
Qed.

(** C1, amended. For every well-typed body {title, author, price}, POST
    /books inserts a record with an id that the storage assigns (one not
    in use).  When the price is a finite number, the answer is 200 and
    carries title and author exactly and the price as the double it was
    read as (a negative zero comes back as zero, every other price as it
    is), with that id.  When the price is infinite, the answer is 200 with
    the price rendered as null.  When the price is no number, the record
    is stored with a NULL price and the answer is 500. *)
Theorem C1_create_echoes_finite_price
        (lax : Coercion) (m p : string) (d : list (string * json))
        (title author : string) (v : json) (price : float) (w : World) :
  dict_get "title" d = Some (JStr title) ->
  dict_get "author" d = Some (JStr author) ->
  dict_get "price" d = Some v ->
  number_value v = Some price ->
  let request := mkRequest m p (POST_books (JObj d)) in
  let new_id := new_rowid (books w) in
  (is_finite price = true ->
   fst (http lax request w)
   = Return (mkResponse 200 (book_json new_id title author (unsigned_zero price)))
   /\ books (snd (http lax request w))
      = books w ++ [BookDB.mk new_id title author (Some (unsigned_zero price))]
   /\ (Prim2SF price <> S754_zero true -> unsigned_zero price = price))
  /\ (forall s, v = JFloat price -> Prim2SF price = S754_infinity s ->
        fst (http lax request w)
        = Return (mkResponse 200 (book_json_null new_id title author))
        /\ books (snd (http lax request w))
           = books w ++ [BookDB.mk new_id title author (Some price)])
  /\ (v = JFloat price -> Prim2SF price = S754_nan ->
      fst (http lax request w) = Raise ResponseValidationError
      /\ status (answer lax request w) = 500
      /\ books (snd (http lax request w))
         = books w ++ [BookDB.mk new_id title author None])
  /\ ~ In new_id (ids (books w)).
Proof.
  intros Ht Ha Hp Hv request new_id.
  pose proof (http_post lax m p (JObj d) w) as H.
  unfold answer, request, new_id. split; [|split; [|split]].
  - intros Hf.
    rewrite (validate_well_typed lax d title author v price Ht Ha Hp Hv Hf) in H.
    cbn zeta in H. cbn [BookCreate.title BookCreate.author BookCreate.price] in H.
    destruct H as [R B].
    rewrite R, B, (Book_response_written _ _ _ _ Hf), (real_column_finite _ Hf).
    split; [reflexivity|]. split; [reflexivity|apply unsigned_zero_same].
  - intros s Ev Hs. subst v.
    rewrite (validate_float_price lax d title author price Ht Ha Hp) in H.
    cbn zeta in H. cbn [BookCreate.title BookCreate.author BookCreate.price] in H.
    destruct H as [R B].
    rewrite R, B, (real_column_infinite _ _ Hs), (Book_response_infinite _ _ _ _ _ Hs).
    split; reflexivity.
  - intros Ev Hn. subst v.
    rewrite (validate_float_price lax d title author price Ht Ha Hp) in H.
    cbn zeta in H. cbn [BookCreate.title BookCreate.author BookCreate.price] in H.
    destruct H as [R B].
    rewrite R, B, (real_column_nan _ Hn). repeat split.
  - apply new_rowid_fresh.
Qed.

Lemma C1_create_test_book :
  fst (http strict (mkRequest "POST" "/books" (POST_books (JObj test_book))) (fresh clock0))
  = Return (mkResponse 200 (book_json 1 "Test Book" "Test Author" price_9_99)).
Proof.
  exact (proj1 (proj1 (C1_create_echoes_finite_price strict "POST" "/books" test_book
                         "Test Book" "Test Author" (JFloat price_9_99) price_9_99
                         (fresh clock0) eq_refl eq_refl eq_refl eq_refl)
                  eq_refl)).
Defined.

(** ** Get by id *)

(** C2 fails as stated: no record has the id 2^63, and GET of it is not
    answered 404 but with the driver's [OverflowError]. *)
Lemma C2_id_beyond_64_bits_is_not_404 : ~ get_is_404_iff_absent.
Proof.
  intros H.
  destruct (H strict "GET" "/books/9223372036854775808" (2 ^ 63) (fresh clock0)) as [_ H1].
  assert (E : fst (http strict (mkRequest "GET" "/books/9223372036854775808"
                                  (GET_book (2 ^ 63))) (fresh clock0))
              = Return not_found_response).
  { apply H1. intros r []. }
  assert (R : fst (http strict (mkRequest "GET" "/books/9223372036854775808"
                                  (GET_book (2 ^ 63))) (fresh clock0))
              = Raise OverflowError) by (vm_compute; reflexivity).
  rewrite R in E. discriminate E.
Qed.

(** C2, amended. For every id in the signed 64-bit range, GET
    /books/{id} answers 404 "Book not found" exactly when no record has
    that id; when a record has it, the answer is that record through the
    response model: 200 with its fields when its price is stored, an
    exception (500) when its price is NULL.  An id outside the range is
    answered 500.  The table is not touched. *)
Theorem C2_get_book_found_or_404 (lax : Coercion) (m p : string) (book_id : Z) (w : World) :
  let request := mkRequest m p (GET_book book_id) in
  (in_int64 book_id = true ->
   (fst (http lax request w) = Return not_found_response
    <-> forall r, In r (books w) -> BookDB.id r <> book_id)
   /\ (forall r, NoDup (ids (books w)) -> In r (books w) -> BookDB.id r = book_id ->
         fst (http lax request w) = respond (Book_response r))
   /\ (forall r x, NoDup (ids (books w)) -> In r (books w) -> BookDB.id r = book_id ->
         BookDB.price r = Some x -> is_finite x = true ->
         fst (http lax request w)
         = Return (mkResponse 200 (book_json book_id (BookDB.title r) (BookDB.author r) x)))
   /\ (forall r, NoDup (ids (books w)) -> In r (books w) -> BookDB.id r = book_id ->
         BookDB.price r = None ->
         fst (http lax request w) = Raise ResponseValidationError
         /\ status (answer lax request w) = 500))
  /\ (in_int64 book_id = false ->
      fst (http lax request w) = Raise OverflowError
      /\ status (answer lax request w) = 500)
  /\ books (snd (http lax request w)) = books w.
Proof.
  intros request. destruct (http_get_book lax m p book_id w) as [R B].
  unfold answer. unfold request. rewrite R, B.
  split; [|split; [|reflexivity]].
  - intros Hr. rewrite Hr.
    assert (Hfound : forall r, NoDup (ids (books w)) -> In r (books w) ->
                               BookDB.id r = book_id ->
                               hd_error (filter (has_id book_id) (books w)) = Some r).
    { intros r Hnd Hin Hid. now apply select_unique. }
    split; [|split; [|split]].
    + destruct (hd_error (filter (has_id book_id) (books w))) as [b|] eqn:E.
      * destruct (select_some _ _ _ E) as [Hin Hid]. split.
        -- intros H. exfalso. destruct (Book_response b); discriminate H.
        -- intros H. exfalso. exact (H b Hin Hid).
      * split; [intros _; now apply select_none|reflexivity].
    + intros r Hnd Hin Hid. now rewrite (Hfound r Hnd Hin Hid).
    + intros r x Hnd Hin Hid Hp Hf. rewrite (Hfound r Hnd Hin Hid).
      destruct r as [i t a pr]. cbn in Hp, Hid |- *. subst.
      now rewrite (Book_response_stored _ _ _ _ Hf).
    + intros r Hnd Hin Hid Hp. rewrite (Hfound r Hnd Hin Hid).
      rewrite (proj2 (Book_response_none r) Hp). split; reflexivity.
  - intros Hr. rewrite Hr. split; reflexivity.
Qed.

(** ** Update *)

(** C3 fails as stated: a PUT whose price is not a number stores NULL
    and is answered with an exception. *)
Lemma C3_nan_price_is_not_echoed : ~ update_echoes_every_body.
Proof.
  intros H.
  specialize (H strict "PUT" "/books/1" 1 nan_book "Test Book" "Test Author" nan one_book
                (BookDB.mk 1 "Test Book" "Test Author" (Some price_9_99))
                eq_refl eq_refl eq_refl (or_introl eq_refl) eq_refl).
  assert (E : fst (http strict (mkRequest "PUT" "/books/1" (PUT_book 1 (JObj nan_book)))
                     one_book)
              = Raise ResponseValidationError) by (vm_compute; reflexivity).
  rewrite E in H. discriminate H.
Qed.

(** C3, amended. For every existing record (its id is in the 64-bit
    range) and every well-typed body, PUT /books/{id} overwrites title,
    author and price of the record with that id, keeps its id and touches
    no other record.  When the price is a finite number, the answer is 200
    with the new values (a negative zero is stored and answered as zero).
    When the price is infinite, the answer is 200 with the price rendered
    as null.  When the price is no number, NULL is stored for it and the
    answer is 500. *)
Theorem C3_update_replaces_fields_keeps_id
        (lax : Coercion) (m p : string) (book_id : Z) (d : list (string * json))
        (title author : string) (v : json) (price : float) (w : World) (old : BookDB.t) :
  dict_get "title" d = Some (JStr title) ->
  dict_get "author" d = Some (JStr author) ->
  dict_get "price" d = Some v ->
  number_value v = Some price ->
  in_int64 book_id = true ->
  In old (books w) -> BookDB.id old = book_id ->
  let request := mkRequest m p (PUT_book book_id (JObj d)) in
  let w' := snd (http lax request w) in
  let written x :=
    map (fun r => if BookDB.id r =? book_id then BookDB.mk book_id title author x else r)
      (books w) in
  (is_finite price = true ->
   fst (http lax request w)
   = Return (mkResponse 200 (book_json book_id title author (unsigned_zero price)))
   /\ books w' = written (Some (unsigned_zero price))
   /\ In (BookDB.mk book_id title author (Some (unsigned_zero price))) (books w')
   /\ (Prim2SF price <> S754_zero true -> unsigned_zero price = price))
  /\ (forall s, v = JFloat price -> Prim2SF price = S754_infinity s ->
        fst (http lax request w)
        = Return (mkResponse 200 (book_json_null book_id title author))
        /\ books w' = written (Some price))
  /\ (v = JFloat price -> Prim2SF price = S754_nan ->
      fst (http lax request w) = Raise ResponseValidationError
      /\ status (answer lax request w) = 500
      /\ books w' = written None)
  /\ ids (books w') = ids (books w).
Proof.
  intros Ht Ha Hp Hv Hr Hold Hid request w' written.
  pose proof (http_put lax m p book_id (JObj d) w) as H.
  destruct (select_present book_id (books w) old Hold Hid) as [b E].
  assert (Hmap : forall x,
             map (fun r => if has_id book_id r then set_fields title author x r else r)
               (books w)
             = written x).
  { intros x. apply map_ext. intros r. unfold has_id, set_fields.
    destruct (BookDB.id r =? book_id) eqn:Er; [|reflexivity].
    apply Z.eqb_eq in Er. now rewrite Er. }
  assert (Hids : ids (books w') = ids (books w)).
  { unfold w', request. clear Hmap.
    destruct (BookCreate_validate lax (JObj d)); cbn zeta in H; destruct H as [_ B];
      rewrite B; [|reflexivity].
    rewrite Hr. apply ids_update. }
  unfold answer, w', request. split; [|split; [|split; [|exact Hids]]].
  - intros Hf.
    rewrite (validate_well_typed lax d title author v price Ht Ha Hp Hv Hf) in H.
    cbn zeta in H. cbn [BookCreate.title BookCreate.author BookCreate.price] in H.
    rewrite Hr, E, (select_updated _ _ _ _ _ _ E) in H. destruct H as [R B].
    rewrite (Book_response_written _ _ _ _ Hf) in R.
    rewrite R, B, (real_column_finite _ Hf), Hmap.
    split; [reflexivity|]. split; [reflexivity|]. split; [|apply unsigned_zero_same].
    apply in_map_iff. exists old. split; [|exact Hold].
    now rewrite (proj2 (Z.eqb_eq _ _) Hid).
  - intros s Ev Hs. subst v.
    rewrite (validate_float_price lax d title author price Ht Ha Hp) in H.
    cbn zeta in H. cbn [BookCreate.title BookCreate.author BookCreate.price] in H.
    rewrite Hr, E, (select_updated _ _ _ _ _ _ E) in H. destruct H as [R B].
    rewrite (real_column_infinite _ _ Hs) in R, B.
    rewrite (Book_response_infinite _ _ _ _ _ Hs) in R.
    rewrite R, B, Hmap. split; reflexivity.
  - intros Ev Hn. subst v.
    rewrite (validate_float_price lax d title author price Ht Ha Hp) in H.
    cbn zeta in H. cbn [BookCreate.title BookCreate.author BookCreate.price] in H.
    rewrite Hr, E, (select_updated _ _ _ _ _ _ E) in H. destruct H as [R B].
    rewrite (real_column_nan _ Hn) in R, B.
    rewrite R, B, Hmap. repeat split.
Qed.

Lemma C3_update_test_book :
  fst (http strict (mkRequest "PUT" "/books/1" (PUT_book 1 (JObj updated_book))) one_book)
  = Return (mkResponse 200 (book_json 1 "Updated Book" "Updated Author" 12.5)).
Proof.
  exact (proj1 (proj1 (C3_update_replaces_fields_keeps_id strict "PUT" "/books/1" 1
                         updated_book "Updated Book" "Updated Author" (JFloat 12.5) 12.5
                         one_book (BookDB.mk 1 "Test Book" "Test Author" (Some price_9_99))
                         eq_refl eq_refl eq_refl eq_refl eq_refl
                         (or_introl eq_refl) eq_refl)
                  eq_refl)).
Defined.

(** ** Update and delete of an absent id *)

(** C4 fails as stated: no record has the id 2^63, and PUT of it is not
    answered 404 but with the driver's [OverflowError]. *)
Lemma C4_id_beyond_64_bits_is_not_404 : ~ absent_id_is_404.
Proof.
  intros H.
  destruct (H strict "PUT" "/books/9223372036854775808" (2 ^ 63) (JObj test_book)
              (BookCreate.mk "Test Book" "Test Author" price_9_99) (fresh clock0) eq_refl)
    as [E _].
  { intros r []. }
  assert (R : fst (http strict (mkRequest "PUT" "/books/9223372036854775808"
                                  (PUT_book (2 ^ 63) (JObj test_book))) (fresh clock0))
              = Raise OverflowError) by (vm_compute; reflexivity).
  rewrite R in E. discriminate E.
Qed.

(** C4, amended. With no record of the given id, PUT /books/{id} (with
    an accepted body) and DELETE /books/{id} both answer 404 when the id
    is in the signed 64-bit range, and 500 when it is not; in either case
    the table is left as it was. *)
Theorem C4_update_delete_absent_404
        (lax : Coercion) (m p m' p' : string) (book_id : Z) (body : json)
        (book : BookCreate.t) (w : World) :
  BookCreate_validate lax body = inl book ->
  (forall r, In r (books w) -> BookDB.id r <> book_id) ->
  let put := mkRequest m p (PUT_book book_id body) in
  let delete := mkRequest m' p' (DELETE_book book_id) in
  (in_int64 book_id = true ->
   fst (http lax put w) = Return not_found_response
   /\ fst (http lax delete w) = Return not_found_response)
  /\ (in_int64 book_id = false ->
      fst (http lax put w) = Raise OverflowError
      /\ fst (http lax delete w) = Raise OverflowError
      /\ status (answer lax put w) = 500
      /\ status (answer lax delete w) = 500)
  /\ books (snd (http lax put w)) = books w
  /\ books (snd (http lax delete w)) = books w.
Proof.
  intros Hv Habsent put delete.
  pose proof (proj2 (select_none book_id (books w)) Habsent) as E.
  pose proof (http_put lax m p book_id body w) as Hp. rewrite Hv in Hp.
  cbn zeta in Hp. destruct Hp as [Rp Bp].
  destruct (http_delete lax m' p' book_id w) as [Rd Bd].
  unfold answer, put, delete. rewrite Rp, Rd, Bp, Bd, E.
  rewrite update_absent, delete_absent by exact Habsent.
  destruct (in_int64 book_id);
    (split; [intros Hi|split; [intros Hi|split; reflexivity]]);
    try discriminate Hi; repeat split.
Qed.

Lemma C4_absent_999 :
  fst (http strict (mkRequest "PUT" "/books/999" (PUT_book 999 (JObj updated_book))) one_book)
  = Return not_found_response
  /\ fst (http strict (mkRequest "DELETE" "/books/999" (DELETE_book 999)) one_book)
     = Return not_found_response.
Proof.
  assert (Habsent : forall r, In r (books one_book) -> BookDB.id r <> 999).
  { intros r [<-|[]]. discriminate. }
  pose proof (C4_update_delete_absent_404 strict "PUT" "/books/999" "DELETE" "/books/999"
                999 (JObj updated_book)
                (BookCreate.mk "Updated Book" "Updated Author" 12.5) one_book
                eq_refl Habsent) as H.
  exact (proj1 H eq_refl).
Defined.

(** ** Delete *)

(** C5. DELETE /books/{id} on an existing record removes it, so that a
    following GET of the same id answers 404, and answers 200 with the
    fixed confirmation message, not with the record.  (The id of a stored
    record is in the 64-bit range of the column.) *)
Theorem C5_delete_removes_and_confirms
        (lax : Coercion) (m p m' p' : string) (book_id : Z) (w : World) (old : BookDB.t) :
  in_int64 book_id = true ->
  In old (books w) -> BookDB.id old = book_id ->
  let delete := mkRequest m p (DELETE_book book_id) in
  let get := mkRequest m' p' (GET_book book_id) in
  let w' := snd (http lax delete w) in
  fst (http lax delete w)
  = Return (mkResponse 200 (JObj [("message", JStr "Book deleted successfully")]))
  /\ books w' = filter (fun r => negb (BookDB.id r =? book_id)) (books w)
  /\ (forall r, In r (books w') -> BookDB.id r <> book_id)
  /\ fst (http lax get w') = Return not_found_response.
Proof.
  intros Hr Hold Hid delete get w'.
  destruct (http_delete lax m p book_id w) as [R B]. rewrite Hr in R, B.
  assert (Hbooks : books w' = filter (fun r => negb (BookDB.id r =? book_id)) (books w)).
  { exact B. }
  assert (Hgone : forall r, In r (books w') -> BookDB.id r <> book_id).
  { intros r Hin. rewrite Hbooks in Hin. apply filter_In in Hin. destruct Hin as [_ Hin].
    apply negb_true_iff in Hin. now apply Z.eqb_neq. }
  split; [|split; [exact Hbooks|split; [exact Hgone|]]].
  - unfold delete. rewrite R.
    destruct (select_present book_id (books w) old Hold Hid) as [b E]. now rewrite E.
  - destruct (http_get_book lax m' p' book_id w') as [Rg _]. unfold get.
    rewrite Rg, Hr, (proj2 (select_none book_id (books w')) Hgone). reflexivity.
Qed.

Lemma C5_delete_test_book :
  fst (http strict (mkRequest "DELETE" "/books/1" (DELETE_book 1)) one_book)
  = Return (mkResponse 200 (JObj [("message", JStr "Book deleted successfully")]))
  /\ fst (http strict (mkRequest "GET" "/books/1" (GET_book 1))
            (snd (http strict (mkRequest "DELETE" "/books/1" (DELETE_book 1)) one_book)))
     = Return not_found_response.
Proof.
  pose proof (C5_delete_removes_and_confirms strict "DELETE" "/books/1" "GET" "/books/1"
                1 one_book (BookDB.mk 1 "Test Book" "Test Author" (Some price_9_99))
                eq_refl (or_introl eq_refl) eq_refl) as H.
  split; [exact (proj1 H)|exact (proj2 (proj2 (proj2 H)))].
Defined.

(** ** List *)

(** C6 fails as stated: after a create whose price is not a number the
    table holds a NULL price, and the list is answered with an exception. *)
Lemma C6_list_fails_after_nan_price : ~ list_always_succeeds.
Proof.
  intros H.
  destruct (H strict "GET" "/books"
              [mkRequest "POST" "/books" (POST_books (JObj nan_book))] clock0) as [items E].
  assert (R : fst (http strict (mkRequest "GET" "/books" GET_books)
                     (run strict [mkRequest "POST" "/books" (POST_books (JObj nan_book))]
                        (fresh clock0)))
              = Raise ResponseValidationError) by (vm_compute; reflexivity).
  rewrite R in E. discriminate E.
Qed.

(** C6, amended. In every storage state where no stored price is NULL,
    GET /books answers 200 with all stored records, each through the
    response model, in the order of the table scan, the empty list when
    there is none; a record created next is listed after all of them
    (insertion order), and in states reached from a fresh database the scan
    is in the order of increasing ids.  Where a stored price is NULL, the
    list is answered 500.  The table is not touched. *)
Theorem C6_list_returns_all_in_scan_order (lax : Coercion) (m p : string) (w : World) :
  let request := mkRequest m p GET_books in
  ((forall r, In r (books w) -> BookDB.price r <> None) ->
   exists items,
     fst (http lax request w) = Return (mkResponse 200 (JArr items))
     /\ map Some items = map Book_response (books w))
  /\ ((exists r, In r (books w) /\ BookDB.price r = None) ->
      fst (http lax request w) = Raise ResponseValidationError
      /\ status (answer lax request w) = 500)
  /\ books (snd (http lax request w)) = books w
  /\ (books w = [] -> fst (http lax request w) = Return (mkResponse 200 (JArr [])))
  /\ (forall m' p' body book items,
         BookCreate_validate lax body = inl book ->
         is_finite (BookCreate.price book) = true ->
         fst (http lax request w) = Return (mkResponse 200 (JArr items)) ->
         let w' := snd (http lax (mkRequest m' p' (POST_books body)) w) in
         fst (http lax request w')
         = Return (mkResponse 200
                     (JArr (items
                            ++ [book_json (new_rowid (books w)) (BookCreate.title book)
                                  (BookCreate.author book)
                                  (unsigned_zero (BookCreate.price book))]))))
  /\ (forall requests clk,
         StronglySorted Z.lt (map BookDB.id (books (run lax requests (fresh clk))))).
Proof.
  intros request.
  assert (Hlist : forall w0, fst (http lax request w0) = respond (as_Book_list (books w0))).
  { intros w0. apply (http_get_books lax m p w0). }
  unfold answer. rewrite !Hlist. unfold as_Book_list.
  split; [|split; [|split; [|split; [|split]]]].
  - intros Hp. destruct (all_responses_some (books w) Hp) as [items [E Hmap]].
    exists items. rewrite E. split; [reflexivity|exact Hmap].
  - intros Hn. rewrite (all_responses_none (books w) Hn). split; reflexivity.
  - apply (http_get_books lax m p w).
  - intros E. rewrite E. reflexivity.
  - intros m' p' body book items Hv Hf Hitems. rewrite Hlist.
    pose proof (http_post lax m' p' body w) as H. rewrite Hv in H. cbn zeta in H.
    destruct H as [_ B]. rewrite B. unfold as_Book_list.
    destruct (all_responses (books w)) as [js|] eqn:E; [|discriminate Hitems].
    cbn in Hitems. injection Hitems as <-.
    rewrite (all_responses_app (books w) _ js
               [book_json (new_rowid (books w)) (BookCreate.title book)
                  (BookCreate.author book) (unsigned_zero (BookCreate.price book))] E).
    + reflexivity.
    + cbn [all_responses]. now rewrite (Book_response_written _ _ _ _ Hf).
  - intros requests clk. apply (run_increasing lax requests (fresh clk)). constructor.
Qed.

(** ** Ids *)

Lemma fold_max_attained (l : list Z) :
  forall a, fold_left Z.max l a = a \/ In (fold_left Z.max l a) l.
Proof.
  induction l as [|x l IH]; intros a; [now left|]. cbn [fold_left].
  destruct (IH (Z.max a x)) as [E|Hin].
  - rewrite E. destruct (Z.max_spec a x) as [[_ ->]|[_ ->]]; [right; now left|now left].
  - right. now right.
Qed.

(** On a table with rows, the next rowid is one more than the id of one
    of them, the largest. *)
Lemma new_rowid_nonempty (t : list BookDB.t) :
  t <> [] -> exists r, In r t /\ new_rowid t = BookDB.id r + 1.
Proof.
  destruct t as [|r0 t]; [contradiction|]. intros _. unfold new_rowid, max_rowid.
  destruct (fold_max_attained (map BookDB.id t) (BookDB.id r0)) as [E|Hin].
  - exists r0. rewrite E. split; [now left|reflexivity].
  - apply in_map_iff in Hin. destruct Hin as [r [E Hr]].
    exists r. rewrite E. split; [now right|reflexivity].
Qed.

(** Create, delete the record, create again: the second record gets the
    id of the first. *)
Lemma C7_id_reused_after_delete : ~ ids_never_reused.
Proof.
  intros H.
  apply (H strict clock0
           [mkRequest "POST" "/books" (POST_books (JObj test_book))]
           [mkRequest "DELETE" "/books/1" (DELETE_book 1)]
           [mkRequest "POST" "/books" (POST_books (JObj test_book))]
           1).
  - vm_compute. now left.
  - vm_compute. intros [].
  - vm_compute. now left.
Qed.

(** C7, amended. In every state reached from a table in rowid order (the
    empty table of a fresh database is one), ids are distinct, and a create
    assigns the new record an id that differs from the id of every record
    stored at that moment: one more than the largest stored id, 1 on an
    empty table.  An id whose record was deleted can be assigned again:
    deleting the record just created and creating once more assigns the
    same id. *)
Theorem C7_ids_unique_and_next_is_largest_plus_one
        (lax : Coercion) (requests : list Request) (w : World)
        (m p : string) (body : json) (book : BookCreate.t) :
  increasing (books w) ->
  BookCreate_validate lax body = inl book ->
  let w' := run lax requests w in
  let create := mkRequest m p (POST_books body) in
  let created := snd (http lax create w') in
  NoDup (ids (books w'))
  /\ exists row,
      books created = books w' ++ [row]
      /\ (books w' = [] -> BookDB.id row = 1)
      /\ (books w' <> [] ->
          exists r, In r (books w') /\ BookDB.id row = BookDB.id r + 1)
      /\ (forall r, In r (books w') -> BookDB.id r < BookDB.id row)
      /\ NoDup (ids (books created))
      /\ (in_int64 (BookDB.id row) = true ->
          let deleted :=
            snd (http lax (mkRequest m p (DELETE_book (BookDB.id row))) created) in
          books deleted = books w'
          /\ exists row', books (snd (http lax create deleted)) = books w' ++ [row']
                          /\ BookDB.id row' = BookDB.id row).
Proof.
  intros Hinc Hv w' create created.
  assert (Hinc' : increasing (books w')) by now apply run_increasing.
  split; [now apply increasing_NoDup|].
  pose proof (http_post lax m p body w') as H. rewrite Hv in H. cbn zeta in H.
  destruct H as [_ B].
  set (row := BookDB.mk (new_rowid (books w')) (BookCreate.title book)
                (BookCreate.author book) (real_column (BookCreate.price book))) in *.
  exists row. split; [exact B|]. cbn [BookDB.id row].
  split; [intros E; now rewrite E|].
  split; [apply new_rowid_nonempty|].
  split; [apply new_rowid_above|].
  split.
  { apply increasing_NoDup. unfold created, create. now apply http_increasing. }
  intros Hr. cbn zeta.
  set (deleted := snd (http lax (mkRequest m p (DELETE_book (new_rowid (books w'))))
                         created)).
  assert (Hdel : books deleted = books w').
  { unfold deleted. destruct (http_delete lax m p (new_rowid (books w')) created) as [_ D].
    rewrite D, Hr. unfold created, create. rewrite B.
    destruct (select_appended (books w') row) as [_ Hrest]; [|exact Hrest].
    intros r Hin. now apply new_rowid_differs. }
  split; [exact Hdel|].
  pose proof (http_post lax m p body deleted) as H. rewrite Hv in H. cbn zeta in H.
  destruct H as [_ B']. eexists. split; [unfold create; rewrite B', Hdel; reflexivity|].
  reflexivity.
Qed.

Lemma C7_ids_unique_after_requests :
  NoDup (ids (books (snd (http strict
                            (mkRequest "POST" "/books" (POST_books (JObj test_book)))
                            (run strict some_requests (fresh clock0)))))).
Proof.
  assert (Hfresh : increasing (books (fresh clock0))) by constructor.
  destruct (C7_ids_unique_and_next_is_largest_plus_one strict some_requests (fresh clock0)
              "POST" "/books" (JObj test_book)
              (BookCreate.mk "Test Book" "Test Author" price_9_99) Hfresh eq_refl)
    as [_ [row [_ [_ [_ [_ [H _]]]]]]].
  exact H.
Defined.

(** ** The validator at the routes *)



(** ** The logging middleware *)

(** C9. [log_requests] hands back the response of the handler chain
    unchanged and only appends one log line: the table is the one the chain
    left.  For the router of this application, whose response does not
    depend on the clock, the response with the middleware is the response
    without it. *)
Theorem C9_logger_never_alters_response
        (lax : Coercion) (request : Request) (call_next : Request -> M Response) (w : World) :
  fst (log_requests request call_next w) = fst (call_next request (tick w))
  /\ (forall response w2,
         call_next request (tick w) = (Return response, w2) ->
         let w' := snd (log_requests request call_next w) in
         books w' = books w2
         /\ api_log w'
            = api_log w2 ++ [request_line request response
                               (clock w2 (ticks w2) - clock w (ticks w))%float])
  /\ fst (http lax request w) = fst (app lax request w)
  /\ books (snd (http lax request w)) = books (snd (app lax request w)).
Proof.
  split; [|split; [|split]].
  - rewrite log_requests_run.
    destruct (call_next request (tick w)) as [[response|e] w2]; reflexivity.
  - intros response w2 E w'. unfold w'. rewrite log_requests_run, E.
    split; reflexivity.
  - rewrite http_response. now apply app_reads_books_only.
  - rewrite http_books. now apply app_reads_books_only.
Qed.

(** ** Frame *)

(** C10. A write touches at most the targeted record: a create keeps the
    table and adds at most one record at its end; an update or a delete of
    an id leaves every record of another id as it was, in all fields and in
    the same order. *)
Theorem C10_writes_touch_only_target
        (lax : Coercion) (m p : string) (book_id : Z) (body : json) (w : World) :
  let post := mkRequest m p (POST_books body) in
  let put := mkRequest m p (PUT_book book_id body) in
  let delete := mkRequest m p (DELETE_book book_id) in
  (books (snd (http lax post w)) = books w
   \/ exists row, books (snd (http lax post w)) = books w ++ [row])
  /\ (forall book, BookCreate_validate lax body = inl book ->
        exists row, books (snd (http lax post w)) = books w ++ [row])
  /\ others book_id (books (snd (http lax put w))) = others book_id (books w)
  /\ others book_id (books (snd (http lax delete w))) = others book_id (books w)
  /\ List.length (books (snd (http lax put w))) = List.length (books w).
Proof.
  intros post put delete.
  pose proof (http_post lax m p body w) as Hpost.
  pose proof (http_put lax m p book_id body w) as Hput.
  destruct (http_delete lax m p book_id w) as [_ Bd].
  unfold post, put, delete, others. rewrite Bd.
  destruct (BookCreate_validate lax body) as [book|errs]; cbn zeta in Hpost, Hput;
    destruct Hpost as [_ Bp]; destruct Hput as [_ Bu]; rewrite Bp, Bu;
    destruct (in_int64 book_id);
    rewrite ?filter_others_update, ?filter_idempotent, ?length_map;
    (split; [|split; [|split; [|split]]]); try reflexivity;
    try (right; eexists; reflexivity); try (now left);
    try (intros book' Hb; eexists; reflexivity); try (intros book' Hb; discriminate Hb).
Qed.

(** * Further properties: how the operations compose *)

(** ** Round trips through the id that a create returns *)

(** X1. The id returned by POST /books addresses the record just
    created: a GET of that id is answered as the create was (also when
    both fail on a price stored as NULL); for a finite price that answer
    is 200 with the id and the values. *)
Theorem create_then_get_returns_created
        (lax : Coercion) (m p m' p' : string) (body : json) (book : BookCreate.t) (w : World) :
  BookCreate_validate lax body = inl book ->
  in_int64 (new_rowid (books w)) = true ->
  let create := mkRequest m p (POST_books body) in
  let new_id := new_rowid (books w) in
  let w' := snd (http lax create w) in
  fst (http lax (mkRequest m' p' (GET_book new_id)) w') = fst (http lax create w)
  /\ (is_finite (BookCreate.price book) = true ->
      fst (http lax create w)
      = Return (mkResponse 200 (book_json new_id (BookCreate.title book)
                                  (BookCreate.author book)
                                  (unsigned_zero (BookCreate.price book))))).
Proof.
  intros Hv Hr create new_id w'.
  pose proof (http_post lax m p body w) as Hpost. rewrite Hv in Hpost.
  cbn zeta in Hpost. destruct Hpost as [Hresp Hbooks].
  destruct (http_get_book lax m' p' new_id w') as [Hget _].
  unfold w', create in *. rewrite Hget, Hbooks, Hresp. unfold new_id. rewrite Hr.
  set (row := BookDB.mk (new_rowid (books w)) (BookCreate.title book)
                (BookCreate.author book) (real_column (BookCreate.price book))).
  destruct (select_appended (books w) row) as [Hsel _].
  { intros r Hin. now apply new_rowid_differs. }
  cbn [BookDB.id row] in Hsel. rewrite Hsel. split; [reflexivity|].
  intros Hf. unfold row. now rewrite (Book_response_written _ _ _ _ Hf).
Qed.

Lemma create_then_get_test_book :
  fst (http strict (mkRequest "GET" "/books/1" (GET_book 1))
         (snd (http strict (mkRequest "POST" "/books" (POST_books (JObj test_book)))
                 (fresh clock0))))
  = Return (mkResponse 200 (book_json 1 "Test Book" "Test Author" price_9_99)).
Proof.
  pose proof (create_then_get_returns_created strict "POST" "/books" "GET" "/books/1"
                (JObj test_book) (BookCreate.mk "Test Book" "Test Author" price_9_99)
                (fresh clock0) eq_refl eq_refl) as H.
  cbn zeta in H. destruct H as [H1 H2]. rewrite (H2 eq_refl) in H1. exact H1.
Defined.

(** X2. Creating a record and then deleting the id the create returned
    gives the table back exactly as it was: the delete answers 200 and
    removes the new record only.  (The id is in the 64-bit range of the
    column.) *)
Theorem create_then_delete_restores_table
        (lax : Coercion) (m p m' p' : string) (body : json) (book : BookCreate.t) (w : World) :
  BookCreate_validate lax body = inl book ->
  in_int64 (new_rowid (books w)) = true ->
  let w' := snd (http lax (mkRequest m p (POST_books body)) w) in
  let delete := mkRequest m' p' (DELETE_book (new_rowid (books w))) in
  fst (http lax delete w') = Return (mkResponse 200 deleted_message)
  /\ books (snd (http lax delete w')) = books w.
Proof.
  intros Hv Hr w' delete.
  pose proof (http_post lax m p body w) as Hpost. rewrite Hv in Hpost.
  cbn zeta in Hpost. destruct Hpost as [_ Hbooks].
  destruct (http_delete lax m' p' (new_rowid (books w)) w') as [Hresp Hdel].
  unfold w', delete in *. rewrite Hresp, Hdel, Hbooks, Hr.
  set (row := BookDB.mk (new_rowid (books w)) (BookCreate.title book)
                (BookCreate.author book) (real_column (BookCreate.price book))).
  destruct (select_appended (books w) row) as [Hsel Hrest].
  { intros r Hin. now apply new_rowid_differs. }
  cbn [BookDB.id row] in Hsel, Hrest. rewrite Hsel, Hrest. split; reflexivity.
Qed.

Lemma create_then_delete_one_book :
  books (snd (http strict (mkRequest "DELETE" "/books/2" (DELETE_book 2))
                (snd (http strict (mkRequest "POST" "/books" (POST_books (JObj updated_book)))
                        one_book))))
  = books one_book.
Proof.
  exact (proj2 (create_then_delete_restores_table strict "POST" "/books" "DELETE" "/books/2"
                  (JObj updated_book) (BookCreate.mk "Updated Book" "Updated Author" 12.5)
                  one_book eq_refl eq_refl)).
Defined.

(** ** Repeating a request *)

(** X3. After a PUT that found the id, a GET of that id is answered as
    the PUT was (also when both fail on a price stored as NULL); for a
    finite price that answer is 200 with the id and the new values. *)
Theorem update_then_get_returns_updated
        (lax : Coercion) (m p m' p' : string) (i : Z) (body : json) (book : BookCreate.t)
        (w : World) (old : BookDB.t) :
  BookCreate_validate lax body = inl book ->
  in_int64 i = true ->
  In old (books w) -> BookDB.id old = i ->
  let put := mkRequest m p (PUT_book i body) in
  fst (http lax (mkRequest m' p' (GET_book i)) (snd (http lax put w))) = fst (http lax put w)
  /\ (is_finite (BookCreate.price book) = true ->
      fst (http lax put w)
      = Return (mkResponse 200 (book_json i (BookCreate.title book) (BookCreate.author book)
                                  (unsigned_zero (BookCreate.price book))))).
Proof.
  intros Hv Hr Hold Hid put.
  pose proof (http_put lax m p i body w) as Hput. rewrite Hv in Hput.
  cbn zeta in Hput. rewrite Hr in Hput. destruct Hput as [Hresp Hbooks].
  destruct (http_get_book lax m' p' i (snd (http lax put w))) as [Hget _].
  unfold put in *. rewrite Hget, Hbooks, Hresp, Hr, filter_updated, hd_error_map.
  destruct (select_present i (books w) old Hold Hid) as [b E]. rewrite E.
  cbn [option_map]. rewrite (select_updated _ _ _ _ _ _ E). split; [reflexivity|].
  intros Hf. now rewrite (Book_response_written _ _ _ _ Hf).
Qed.

Lemma update_then_get_test_book :
  fst (http strict (mkRequest "GET" "/books/1" (GET_book 1))
         (snd (http strict (mkRequest "PUT" "/books/1" (PUT_book 1 (JObj updated_book)))
                 one_book)))
  = Return (mkResponse 200 (book_json 1 "Updated Book" "Updated Author" 12.5)).
Proof.
  pose proof (update_then_get_returns_updated strict "PUT" "/books/1" "GET" "/books/1" 1
                (JObj updated_book) (BookCreate.mk "Updated Book" "Updated Author" 12.5)
                one_book (BookDB.mk 1 "Test Book" "Test Author" (Some price_9_99))
                eq_refl eq_refl (or_introl eq_refl) eq_refl) as H.
  cbn zeta in H. destruct H as [H1 H2]. rewrite (H2 eq_refl) in H1. exact H1.
Defined.

(** X4. PUT is idempotent: sending the same PUT again gives the same
    response and leaves the table as the first one left it, whether the
    body was accepted or not and whether the id exists or not. *)
Theorem put_is_idempotent
        (lax : Coercion) (m p : string) (i : Z) (body : json) (w : World) :
  let put := mkRequest m p (PUT_book i body) in
  let w' := snd (http lax put w) in
  fst (http lax put w') = fst (http lax put w)
  /\ books (snd (http lax put w')) = books w'.
Proof.
  intros put w'.
  pose proof (http_put lax m p i body w) as H1.
  pose proof (http_put lax m p i body w') as H2.
  destruct (BookCreate_validate lax body) as [book|errs]; cbn zeta in H1, H2;
    destruct H1 as [R1 B1]; destruct H2 as [R2 B2]; unfold w', put in *.
  - rewrite R2, B2, R1, B1. destruct (in_int64 i); [|split; reflexivity].
    rewrite filter_updated, hd_error_map. split; [|apply update_twice].
    destruct (hd_error (filter (has_id i) (books w))) as [b|] eqn:E; reflexivity.
  - rewrite R2, B2, R1. split; reflexivity.
Qed.

(** X5. After a DELETE of an id in the signed 64-bit range, whatever it
    answered, the same DELETE again answers 404; for an id outside the
    range both are answered with the driver's exception (500).  In either
    case the second DELETE leaves the table as it is. *)
Theorem delete_again_is_not_found
        (lax : Coercion) (m p : string) (i : Z) (w : World) :
  let delete := mkRequest m p (DELETE_book i) in
  let w' := snd (http lax delete w) in
  (in_int64 i = true -> fst (http lax delete w') = Return not_found_response)
  /\ (in_int64 i = false ->
      fst (http lax delete w) = Raise OverflowError
      /\ fst (http lax delete w') = Raise OverflowError
      /\ status (answer lax delete w') = 500)
  /\ books (snd (http lax delete w')) = books w'.
Proof.
  intros delete w'.
  destruct (http_delete lax m p i w) as [R1 B1].
  destruct (http_delete lax m p i w') as [R2 B2].
  unfold answer. unfold w', delete in *. rewrite R2, B2, R1, B1.
  destruct (in_int64 i).
  - assert (Hgone : forall r, In r (filter (fun r => negb (has_id i r)) (books w)) ->
                              BookDB.id r <> i).
    { intros r Hin. apply filter_In in Hin. destruct Hin as [_ Hin].
      apply negb_true_iff in Hin. now apply has_id_false. }
    rewrite (filter_absent _ _ Hgone), (delete_absent _ _ Hgone).
    split; [reflexivity|]. split; [intros H; discriminate H|reflexivity].
  - split; [intros H; discriminate H|]. split; [|reflexivity]. intros _. repeat split.
Qed.

(** ** Exactly one record *)

(** X6. In a table with distinct ids, DELETE /books/{id} of a stored
    record removes that one record and nothing else: the records before
    and after it stay, in order.  (The id of a stored record is in the
    64-bit range of the column.) *)
Theorem delete_removes_exactly_one
        (lax : Coercion) (m p : string) (w : World) (l1 l2 : list BookDB.t) (old : BookDB.t) :
  in_int64 (BookDB.id old) = true ->
  NoDup (ids (books w)) ->
  books w = l1 ++ old :: l2 ->
  let delete := mkRequest m p (DELETE_book (BookDB.id old)) in
  fst (http lax delete w) = Return (mkResponse 200 deleted_message)
  /\ books (snd (http lax delete w)) = l1 ++ l2.
Proof.
  intros Hr Hnd Hsplit delete. rewrite Hsplit in Hnd.
  destruct (distinct_around l1 l2 old Hnd) as [H1 H2].
  destruct (http_delete lax m p (BookDB.id old) w) as [R B].
  unfold delete. rewrite R, B, Hr, Hsplit, !filter_app. cbn [filter].
  rewrite (proj2 (has_id_true (BookDB.id old) old) eq_refl). cbn [negb].
  rewrite (filter_absent _ _ H1), (delete_absent _ _ H1), (delete_absent _ _ H2).
  split; reflexivity.
Qed.

Lemma delete_first_of_two :
  books (snd (http strict (mkRequest "DELETE" "/books/1" (DELETE_book 1)) two_books))
  = [BookDB.mk 2 "Updated Book" "Updated Author" (Some 12.5%float)].
Proof.
  refine (proj2 (delete_removes_exactly_one strict "DELETE" "/books/1" two_books []
                   [BookDB.mk 2 "Updated Book" "Updated Author" (Some 12.5%float)]
                   (BookDB.mk 1 "Test Book" "Test Author" (Some price_9_99))
                   eq_refl _ eq_refl)).
  repeat constructor; cbn; intuition discriminate.
Defined.

(** X7. In a table with distinct ids, PUT /books/{id} of a stored
    record with an accepted body rewrites that one record in its place,
    with the same id, the new title and author, and the price as the
    column holds it (the price itself when it is finite and no negative
    zero), and leaves the records before and after it as they were. *)
Theorem update_rewrites_exactly_one
        (lax : Coercion) (m p : string) (body : json) (book : BookCreate.t)
        (w : World) (l1 l2 : list BookDB.t) (old : BookDB.t) :
  BookCreate_validate lax body = inl book ->
  in_int64 (BookDB.id old) = true ->
  NoDup (ids (books w)) ->
  books w = l1 ++ old :: l2 ->
  let put := mkRequest m p (PUT_book (BookDB.id old) body) in
  books (snd (http lax put w))
  = l1 ++ BookDB.mk (BookDB.id old) (BookCreate.title book) (BookCreate.author book)
            (real_column (BookCreate.price book)) :: l2
  /\ (is_finite (BookCreate.price book) = true ->
      Prim2SF (BookCreate.price book) <> S754_zero true ->
      real_column (BookCreate.price book) = Some (BookCreate.price book)).
Proof.
  intros Hv Hr Hnd Hsplit put. rewrite Hsplit in Hnd.
  destruct (distinct_around l1 l2 old Hnd) as [H1 H2].
  pose proof (http_put lax m p (BookDB.id old) body w) as H. rewrite Hv in H.
  cbn zeta in H. destruct H as [_ B].
  unfold put. rewrite B, Hr, Hsplit, map_app. cbn [map].
  rewrite (proj2 (has_id_true (BookDB.id old) old) eq_refl).
  rewrite (update_absent _ _ _ _ _ H1), (update_absent _ _ _ _ _ H2).
  split; [reflexivity|].
  intros Hf Hz. now rewrite (real_column_finite _ Hf), (unsigned_zero_same _ Hz).
Qed.

Lemma update_second_of_two :
  books (snd (http strict (mkRequest "PUT" "/books/2" (PUT_book 2 (JObj test_book)))
                two_books))
  = [BookDB.mk 1 "Test Book" "Test Author" (Some price_9_99);
     BookDB.mk 2 "Test Book" "Test Author" (Some price_9_99)].
Proof.
  refine (proj1 (update_rewrites_exactly_one strict "PUT" "/books/2" (JObj test_book)
                   (BookCreate.mk "Test Book" "Test Author" price_9_99) two_books
                   [BookDB.mk 1 "Test Book" "Test Author" (Some price_9_99)] []
                   (BookDB.mk 2 "Updated Book" "Updated Author" (Some 12.5%float))
                   eq_refl eq_refl _ eq_refl)).
  repeat constructor; cbn; intuition discriminate.
Defined.

(** ** A run of creates *)

Lemma all_responses_numbered (bs : list BookCreate.t) :
  (forall b, In b bs -> is_finite (BookCreate.price b) = true) ->
  forall k, all_responses (numbered k bs) = Some (numbered_json k bs).
Proof.
  induction bs as [|b bs IH]; intros H k; [reflexivity|].
  cbn [numbered numbered_json all_responses].
  rewrite (Book_response_written _ _ _ _ (H b (or_introl eq_refl))).
  rewrite IH; [reflexivity|]. intros b' Hb'. apply H. now right.
Qed.

(** X8. Creates in succession get consecutive ids and are stored in the
    order they were made, each price as the column holds it; on a fresh
    database the n-th created book has id n, and when all prices are
    finite GET /books lists the books in that order. *)
Theorem creates_are_numbered_in_order
        (lax : Coercion) (m p : string) (bs : list BookCreate.t) (w : World) (clk : nat -> float) :
  books (run lax (create_requests bs) w) = books w ++ numbered (new_rowid (books w)) bs
  /\ ((forall b, In b bs -> is_finite (BookCreate.price b) = true) ->
      fst (http lax (mkRequest m p GET_books) (run lax (create_requests bs) (fresh clk)))
      = Return (mkResponse 200 (JArr (numbered_json 1 bs)))).
Proof.
  assert (Hrun : forall w0, books (run lax (create_requests bs) w0)
                            = books w0 ++ numbered (new_rowid (books w0)) bs).
  { induction bs as [|b bs IH]; intros w0; cbn [create_requests map run numbered].
    - now rewrite app_nil_r.
    - pose proof (http_post lax "POST" "/books" (body_of b) w0) as H.
      rewrite body_of_accepted in H. cbn zeta in H. destruct H as [_ B].
      fold (create_requests bs). rewrite IH, B, new_rowid_after_insert, <- app_assoc.
      reflexivity. }
  split; [apply Hrun|]. intros Hf.
  destruct (http_get_books lax m p (run lax (create_requests bs) (fresh clk))) as [R _].
  rewrite R, Hrun. unfold as_Book_list.
  change (books (fresh clk)) with (@nil BookDB.t). change (new_rowid []) with 1.
  rewrite app_nil_l. now rewrite (all_responses_numbered bs Hf).
Qed.

(** ** Statuses *)

Lemma all_responses_refused (l : list BookDB.t) :
  all_responses l = None -> exists r, In r l /\ BookDB.price r = None.
Proof.
  induction l as [|r l IH]; cbn [all_responses]; intros H; [discriminate H|].
  destruct (Book_response r) as [j|] eqn:E.
  - destruct (all_responses l); [discriminate H|].
    destruct (IH eq_refl) as [r0 [Hin Hp]]. exists r0. split; [now right|exact Hp].
  - exists r. split; [now left|now apply Book_response_none].
Qed.

(** X9. What a request can be answered.  A response has status 200 on
    GET /books; 200 or 404 on GET and DELETE of an id; 200 on POST and 200
    or 404 on PUT when the body is accepted, 422 on both when it is
    refused.  An exception comes through (and is answered 500) only in two
    cases: the id in the path is outside the 64-bit range, or a record
    whose price is NULL had to go through the response model. *)
Theorem statuses_by_route (lax : Coercion) (request : Request) (w : World) :
  (forall response,
      fst (http lax request w) = Return response ->
      match endpoint request with
      | GET_books => status response = 200
      | GET_book _ | DELETE_book _ => status response = 200 \/ status response = 404
      | POST_books body =>
          match BookCreate_validate lax body with
          | inl _ => status response = 200
          | inr _ => status response = 422
          end
      | PUT_book _ body =>
          match BookCreate_validate lax body with
          | inl _ => status response = 200 \/ status response = 404
          | inr _ => status response = 422
          end
      end)
  /\ (forall e,
         fst (http lax request w) = Raise e ->
         (e = OverflowError
          /\ exists i, path_id (endpoint request) = Some i /\ in_int64 i = false)
         \/ (e = ResponseValidationError
             /\ exists r, In r (books (snd (http lax request w)))
                          /\ BookDB.price r = None))
  /\ (status (answer lax request w) = 200 \/ status (answer lax request w) = 404
      \/ status (answer lax request w) = 422 \/ status (answer lax request w) = 500).
Proof.
  assert (Hret : forall response,
             fst (http lax request w) = Return response ->
             match endpoint request with
             | GET_books => status response = 200
             | GET_book _ | DELETE_book _ => status response = 200 \/ status response = 404
             | POST_books body =>
                 match BookCreate_validate lax body with
                 | inl _ => status response = 200
                 | inr _ => status response = 422
                 end
             | PUT_book _ body =>
                 match BookCreate_validate lax body with
                 | inl _ => status response = 200 \/ status response = 404
                 | inr _ => status response = 422
                 end
             end).
  { intros response. destruct request as [m p [|i|body|i body|i]]; cbn [endpoint].
    - destruct (http_get_books lax m p w) as [R _]. rewrite R.
      destruct (as_Book_list (books w)); intros H; [|discriminate H].
      injection H as <-. reflexivity.
    - destruct (http_get_book lax m p i w) as [R _]. rewrite R.
      destruct (in_int64 i); [|intros H; discriminate H].
      destruct (hd_error (filter (has_id i) (books w))) as [b|].
      + destruct (Book_response b); intros H; [|discriminate H].
        injection H as <-. now left.
      + intros H. injection H as <-. now right.
    - pose proof (http_post lax m p body w) as H.
      destruct (BookCreate_validate lax body) as [book|errs]; cbn zeta in H;
        destruct H as [R _]; rewrite R.
      + destruct (Book_response _); intros H; [|discriminate H].
        injection H as <-. reflexivity.
      + intros H. injection H as <-. reflexivity.
    - pose proof (http_put lax m p i body w) as H.
      destruct (BookCreate_validate lax body) as [book|errs]; cbn zeta in H;
        destruct H as [R _]; rewrite R.
      + destruct (in_int64 i); [|intros H; discriminate H].
        destruct (hd_error (filter (has_id i) (books w))) as [b|].
        * destruct (Book_response _); intros H; [|discriminate H].
          injection H as <-. now left.
        * intros H. injection H as <-. now right.
      + intros H. injection H as <-. reflexivity.
    - destruct (http_delete lax m p i w) as [R _]. rewrite R.
      destruct (in_int64 i); [|intros H; discriminate H].
      destruct (hd_error (filter (has_id i) (books w))); intros H; injection H as <-;
        [now left|now right]. }
  assert (Hraise : forall e,
             fst (http lax request w) = Raise e ->
             (e = OverflowError
              /\ exists i, path_id (endpoint request) = Some i /\ in_int64 i = false)
             \/ (e = ResponseValidationError
                 /\ exists r, In r (books (snd (http lax request w)))
                              /\ BookDB.price r = None)).
  { intros e. destruct request as [m p [|i|body|i body|i]]; cbn [endpoint path_id].
    - destruct (http_get_books lax m p w) as [R B]. rewrite R, B. unfold as_Book_list.
      destruct (all_responses (books w)) eqn:E; intros H; [discriminate H|].
      injection H as <-. right. split; [reflexivity|now apply all_responses_refused].
    - destruct (http_get_book lax m p i w) as [R B]. rewrite R, B.
      destruct (in_int64 i) eqn:Hi.
      + destruct (hd_error (filter (has_id i) (books w))) as [b|] eqn:E;
          [|intros H; discriminate H].
        destruct (Book_response b) eqn:Eb; intros H; [discriminate H|].
        injection H as <-. right. split; [reflexivity|]. exists b.
        split; [exact (proj1 (select_some _ _ _ E))|now apply Book_response_none].
      + intros H. injection H as <-. left. split; [reflexivity|]. now exists i.
    - pose proof (http_post lax m p body w) as H.
      destruct (BookCreate_validate lax body) as [book|errs]; cbn zeta in H;
        destruct H as [R B]; rewrite R, B; [|intros H; discriminate H].
      destruct (Book_response _) eqn:Eb; intros H; [discriminate H|].
      injection H as <-. right. split; [reflexivity|]. eexists.
      split; [apply in_or_app; right; now left|].
      apply Book_response_none in Eb. exact Eb.
    - pose proof (http_put lax m p i body w) as H.
      destruct (BookCreate_validate lax body) as [book|errs]; cbn zeta in H;
        destruct H as [R B]; rewrite R, B; [|intros H; discriminate H].
      destruct (in_int64 i) eqn:Hi.
      + destruct (hd_error (filter (has_id i) (books w))) as [b|] eqn:E;
          [|intros H; discriminate H].
        destruct (Book_response _) eqn:Eb; intros H; [discriminate H|].
        injection H as <-. right. split; [reflexivity|]. eexists. split.
        * apply in_map_iff. exists b. split; [|exact (proj1 (select_some _ _ _ E))].
          rewrite (proj2 (has_id_true i b) (proj2 (select_some _ _ _ E))). reflexivity.
        * apply Book_response_none in Eb. exact Eb.
      + intros H. injection H as <-. left. split; [reflexivity|]. now exists i.
    - destruct (http_delete lax m p i w) as [R B]. rewrite R.
      destruct (in_int64 i) eqn:Hi.
      + destruct (hd_error (filter (has_id i) (books w))); intros H; discriminate H.
      + intros H. injection H as <-. left. split; [reflexivity|]. now exists i. }
  split; [exact Hret|]. split; [exact Hraise|].
  unfold answer. destruct (fst (http lax request w)) as [response|e] eqn:E.
  - specialize (Hret response eq_refl).
    destruct (endpoint request) as [|i|body|i body|i];
      try destruct (BookCreate_validate lax body); intuition.
  - right; right; right. reflexivity.
Qed.

(** ** The log *)

(** What the router writes: when it answers, the records of the
    handler, with one WARNING exactly for a 404 and nothing for a refused
    body; when an exception goes through, the one INFO record of the
    handler. *)
Lemma app_log (lax : Coercion) (request : Request) (w : World) :
  exists added t,
    snd (app lax request w) = evolve w t added
    /\ match fst (app lax request w) with
       | Return response =>
           List.length (filter is_warning added)
           = (if status response =? 404 then 1%nat else 0%nat)
           /\ (status response = 422 -> added = [])
       | Raise _ => exists line, added = [(INFO, line)]
       end.
Proof.
  assert (Hw : forall w0 : World, w0 = evolve w0 (books w0) []).
  { intros [t l c n]. unfold evolve. cbn. now rewrite app_nil_r. }
  unfold app. destruct request as [m p [|i|body|i body|i]]; cbn [endpoint].
  - rewrite serve_run, get_books_run. cbn [fst snd].
    do 2 eexists. split; [reflexivity|].
    destruct (as_Book_list (books w)); cbn [respond status];
      [split; [reflexivity|discriminate]|eexists; reflexivity].
  - rewrite serve_run, get_book_run.
    destruct (in_int64 i); [destruct (hd_error (filter (has_id i) (books w))) as [b|]|];
      cbn [fst snd]; try destruct (as_Book b); cbn [respond status];
      do 2 eexists; (split; [reflexivity|]);
      try (split; [reflexivity|discriminate]); eexists; reflexivity.
  - destruct (BookCreate_validate lax body) as [book|errs].
    + rewrite serve_run, create_book_run. cbn [fst snd].
      destruct (as_optional_Book _); cbn [respond status];
        do 2 eexists; (split; [reflexivity|]);
        try (split; [reflexivity|discriminate]); eexists; reflexivity.
    + exists [], (books w). split; [unfold ret; cbn [snd]; apply Hw|].
      cbn. split; reflexivity.
  - destruct (BookCreate_validate lax body) as [book|errs].
    + rewrite serve_run, update_book_run.
      destruct (in_int64 i); [destruct (hd_error (filter (has_id i) (books w))) as [b|]|];
        cbn [fst snd]; try destruct (as_Book _); cbn [respond status];
        do 2 eexists; (split; [reflexivity|]);
        try (split; [reflexivity|discriminate]); eexists; reflexivity.
    + exists [], (books w). split; [unfold ret; cbn [snd]; apply Hw|].
      cbn. split; reflexivity.
  - rewrite serve_run, delete_book_run.
    destruct (in_int64 i); [destruct (hd_error (filter (has_id i) (books w)))|];
      cbn [fst snd as_is respond status];
      do 2 eexists; (split; [reflexivity|]);
      try (split; [reflexivity|discriminate]); eexists; reflexivity.
Qed.

(** X10. What a request writes to the log.  The log only grows.  When
    the request is answered by the application, the last record is the
    line of the middleware, with the status of the response and the time
    between its two readings of the clock; before it come the records of
    the handler, with one WARNING exactly when the response is a 404, and
    none at all when the body was refused (the handler did not run).  When
    an exception comes through, the middleware writes nothing and reads
    the clock once: the one INFO record of the handler is all that is
    added. *)
Theorem log_of_a_request (lax : Coercion) (request : Request) (w : World) :
  exists added,
    match fst (http lax request w) with
    | Return response =>
        api_log (snd (http lax request w))
        = api_log w ++ added
            ++ [request_line request response
                  (clock w (S (ticks w)) - clock w (ticks w))%float]
        /\ List.length (filter is_warning added)
           = (if status response =? 404 then 1%nat else 0%nat)
        /\ (status response = 422 -> added = [])
        /\ ticks (snd (http lax request w)) = S (S (ticks w))
    | Raise _ =>
        (exists line, added = [(INFO, line)])
        /\ api_log (snd (http lax request w)) = api_log w ++ added
        /\ ticks (snd (http lax request w)) = S (ticks w)
    end.
Proof.
  destruct (app_log lax request (tick w)) as [added [t [E H]]].
  exists added. unfold http. rewrite log_requests_run.
  destruct (app lax request (tick w)) as [[response|e] w2]; cbn [fst snd] in *;
    subst w2; cbn [fst snd evolve tick books api_log clock ticks].
  - destruct H as [Hw H422]. rewrite <- app_assoc. repeat split; assumption.
  - split; [exact H|]. split; reflexivity.
Qed.

(** X11. If the handler chain raises, [log_requests] lets the exception
    through and writes no line: the world is as the chain left it. *)
Theorem log_requests_lets_exceptions_through
        (request : Request) (call_next : Request -> M Response) (w w2 : World)
        (e : Exception) :
  call_next request (tick w) = (Raise e, w2) ->
  log_requests request call_next w = (Raise e, w2).
Proof. intros H. rewrite log_requests_run, H. reflexivity. Qed.

Lemma log_requests_raising_chain :
  log_requests (mkRequest "GET" "/books/1" (GET_book 1)) (fun _ => raise not_found)
    (fresh clock0)
  = (Raise not_found, tick (fresh clock0)).
Proof.
  exact (log_requests_lets_exceptions_through (mkRequest "GET" "/books/1" (GET_book 1))
           (fun _ => raise not_found) (fresh clock0) (tick (fresh clock0)) not_found
           eq_refl).
Defined.

(** X12. Neither the log nor the clock has a say in what a request
    answers or does to the table: two worlds with the same table give the
    same response and the same table. *)
Theorem response_depends_on_table_only
        (lax : Coercion) (request : Request) (w1 w2 : World) :
  books w1 = books w2 ->
  fst (http lax request w1) = fst (http lax request w2)
  /\ books (snd (http lax request w1)) = books (snd (http lax request w2)).
Proof.
  intros E. rewrite !http_response, !http_books.
  now apply app_reads_books_only.
Qed.

Lemma same_table_same_response :
  fst (http strict (mkRequest "GET" "/books/1" (GET_book 1)) one_book)
  = fst (http strict (mkRequest "GET" "/books/1" (GET_book 1))
           (mkWorld (books one_book) [(WARNING, "Book with id 7 not found")]
              (fun _ => 12.5%float) 3)).
Proof.
  exact (proj1 (response_depends_on_table_only strict
                  (mkRequest "GET" "/books/1" (GET_book 1)) one_book
                  (mkWorld (books one_book) [(WARNING, "Book with id 7 not found")]
                     (fun _ => 12.5%float) 3) eq_refl)).
Defined.

(** ** What a body cannot do *)

(** X13. Only title, author and price of a body are read: two bodies
    that agree on these three members, whatever else they hold (an id, for
    one), are validated alike, and POST and PUT answer and store the
    same for both. *)
Theorem other_members_are_ignored
        (lax : Coercion) (m p : string) (i : Z) (d1 d2 : list (string * json)) (w : World) :
  dict_get "title" d1 = dict_get "title" d2 ->
  dict_get "author" d1 = dict_get "author" d2 ->
  dict_get "price" d1 = dict_get "price" d2 ->
  BookCreate_validate lax (JObj d1) = BookCreate_validate lax (JObj d2)
  /\ http lax (mkRequest m p (POST_books (JObj d1))) w
     = http lax (mkRequest m p (POST_books (JObj d2))) w
  /\ http lax (mkRequest m p (PUT_book i (JObj d1))) w
     = http lax (mkRequest m p (PUT_book i (JObj d2))) w.
Proof.
  intros Ht Ha Hp.
  assert (Hv : BookCreate_validate lax (JObj d1) = BookCreate_validate lax (JObj d2)).
  { unfold BookCreate_validate, required. now rewrite Ht, Ha, Hp. }
  split; [exact Hv|].
  unfold http. rewrite !log_requests_run. unfold app. cbn [endpoint method url_path].
  rewrite Hv. split; reflexivity.
Qed.

Lemma body_id_is_ignored :
  fst (http strict (mkRequest "POST" "/books" (POST_books (JObj test_book_with_id)))
         (fresh clock0))
  = Return (mkResponse 200 (book_json 1 "Test Book" "Test Author" price_9_99)).
Proof.
  pose proof (other_members_are_ignored strict "POST" "/books" 0 test_book_with_id test_book
                (fresh clock0) eq_refl eq_refl eq_refl) as H.
  destruct H as [_ [H _]]. rewrite H. reflexivity.
Defined.

(** ** Other ids *)

(** X14. A write leaves the answers for other ids alone: after a PUT or
    a DELETE of id i, and after a POST, GET /books/{j} answers what it
    answered before, for every j other than i (other than the new id, for
    the POST). *)
Theorem writes_keep_other_answers
        (lax : Coercion) (m p m' p' : string) (i j : Z) (body : json) (w : World) :
  j <> i ->
  let get := mkRequest m' p' (GET_book j) in
  fst (http lax get (snd (http lax (mkRequest m p (PUT_book i body)) w)))
  = fst (http lax get w)
  /\ fst (http lax get (snd (http lax (mkRequest m p (DELETE_book i)) w)))
     = fst (http lax get w)
  /\ (j <> new_rowid (books w) ->
      fst (http lax get (snd (http lax (mkRequest m p (POST_books body)) w)))
      = fst (http lax get w)).
Proof.
  intros Hne get. unfold get.
  assert (Hget : forall w1 w2, filter (has_id j) (books w1) = filter (has_id j) (books w2) ->
                               fst (http lax (mkRequest m' p' (GET_book j)) w1)
                               = fst (http lax (mkRequest m' p' (GET_book j)) w2)).
  { intros w1 w2 E. destruct (http_get_book lax m' p' j w1) as [R1 _].
    destruct (http_get_book lax m' p' j w2) as [R2 _]. now rewrite R1, R2, E. }
  split; [|split].
  - apply Hget. pose proof (http_put lax m p i body w) as H.
    destruct (BookCreate_validate lax body); cbn zeta in H; destruct H as [_ B];
      rewrite B; [|reflexivity].
    destruct (in_int64 i); [now apply filter_other_after_update|reflexivity].
  - apply Hget. destruct (http_delete lax m p i w) as [_ B]. rewrite B.
    destruct (in_int64 i); [now apply filter_other_after_delete|reflexivity].
  - intros Hnew. apply Hget. pose proof (http_post lax m p body w) as H.
    destruct (BookCreate_validate lax body); cbn zeta in H; destruct H as [_ B];
      rewrite B; [|reflexivity].
    rewrite filter_app. cbn [filter]. unfold has_id at 2. cbn [BookDB.id].
    rewrite (proj2 (Z.eqb_neq _ _) (not_eq_sym Hnew)). apply app_nil_r.
Qed.

Lemma delete_second_keeps_first :
  fst (http strict (mkRequest "GET" "/books/1" (GET_book 1))
         (snd (http strict (mkRequest "DELETE" "/books/2" (DELETE_book 2)) two_books)))
  = fst (http strict (mkRequest "GET" "/books/1" (GET_book 1)) two_books).
Proof.
  assert (Hne : 1 <> 2) by discriminate.
  exact (proj1 (proj2 (writes_keep_other_answers strict "DELETE" "/books/2" "GET" "/books/1"
                         2 1 JNull two_books Hne))).
Defined.
